(** * WTwebdev telemetry interface: a shallow embedding of [telemetry.py]

    The module polls the local War Thunder web server, merges the two
    JSON snapshots it serves into [full_telemetry] / [basic_telemetry] and
    classifies the game state.  Python objects are embedded as follows.

    - JSON scalars and [None] are the constructors of [value]; Python
      floats are IEEE binary64 numbers, here the kernel's primitive floats.
    - A snapshot (a JSON object) is a [gmap string value].
    - An element of the chat or HUD log is an [entry]: its ['id'] member
      (absent, or an integer) and the rest of its members.
    - The instance attributes of [TelemInterface] are the fields of
      [iface]; a method is a computation [M A] that threads the instance
      and either returns or raises.  A raised exception keeps every
      mutation made before it, as in Python.
    - What the collaborators answer during one call (the HTTP server behind
      [requests.get] and the [mapinfo.MapInfo] object) is a [world]. *)

From Stdlib Require Import ZArith String List Bool Lia Floats.
From stdpp Require Import base option list gmap strings.

Local Open Scope string_scope.
Local Open Scope Z_scope.
Local Open Scope list_scope.

(** ** Values *)

Inductive value : Type :=
  | VNone
  | VBool (b : bool)
  | VInt (z : Z)
  | VFloat (f : float)
  | VStr (s : string).

(** A JSON object of the [/gamechat] or [/hudmsg] log. *)
Record entry : Type := Entry {
  entry_id : option Z;
  entry_rest : gmap string value
}.

(** ** Exceptions *)

Inductive exc_class : Type :=
  | ConnectTimeout
  | ConnectionError
  | JSONDecodeError
  | KeyError
  | IndexError
  | TypeError
  | AttributeError
  | OverflowError
  | ValueError
  | OtherException.

#[global] Instance exc_class_eq_dec : EqDecision exc_class.
Proof. solve_decision. Defined.

(** An exception object: its class and [str(e)]. *)
Record exc : Type := Exc {
  exc_type : exc_class;
  exc_str : string
}.

Inductive result (A : Type) : Type :=
  | Ok (a : A)
  | Raise (e : exc).
Arguments Ok {A} a.
Arguments Raise {A} e.

(** [str(KeyError(k))] for a string key is the key's [repr]. *)
Definition key_error (k : string) : exc :=
  Exc KeyError ("'" +:+ k +:+ "'").

(** ** Module constants *)

Definition FT_TO_M : float := 0x1.381d7dbf487fdp-2%float.

Definition METRICS_PLANES : list string :=
  [ "p-"; "f-"; "f2"; "f3"; "f4"; "f6"; "f7"; "f8"; "f9"; "os";
    "sb"; "tb"; "a-"; "pb"; "am"; "ad"; "fj"; "b-"; "b_"; "xp";
    "bt"; "xa"; "xf"; "sp"; "hu"; "ty"; "fi"; "gl"; "ni"; "fu";
    "fu"; "se"; "bl"; "be"; "su"; "te"; "st"; "mo"; "we"; "ha" ].

Module Status.
Definition IN_FLIGHT : Z := 0.
Definition IN_MENU : Z := -1.
Definition NO_MISSION : Z := -2.
Definition WT_NOT_RUNNING : Z := -3.
Definition OTHER_ERROR : Z := -4.
End Status.

(** ** Python operators on values *)

Definition type_name (v : value) : string :=
  match v with
  | VNone => "NoneType"
  | VBool _ => "bool"
  | VInt _ => "int"
  | VFloat _ => "float"
  | VStr _ => "str"
  end.

(** Truth value testing. *)
Definition truthy (v : value) : bool :=
  match v with
  | VNone => false
  | VBool b => b
  | VInt z => negb (z =? 0)
  | VFloat f => negb (PrimFloat.eqb f 0%float)
  | VStr s => negb (String.eqb s EmptyString)
  end.

Definition Z_of_bool (b : bool) : Z := if b then 1 else 0.

(** Unary minus. *)
Definition py_neg (v : value) : result value :=
  match v with
  | VInt z => Ok (VInt (- z))
  | VBool b => Ok (VInt (- Z_of_bool b))
  | VFloat f => Ok (VFloat (- f)%float)
  | _ => Raise (Exc TypeError
                  ("bad operand type for unary -: '" +:+ type_name v +:+ "'"))
  end.

(** [float(n)] for an integer: round to nearest even, [OverflowError]
    beyond the binary64 range. *)
Definition float_of_int (z : Z) : result float :=
  match binary_normalize prec emax z 0 false with
  | S754_infinity _ => Raise (Exc OverflowError "int too large to convert to float")
  | x => Ok (SF2Prim x)
  end.

(** [v * c] for a float [c]. *)
Definition py_mul_float (v : value) (c : float) : result value :=
  match v with
  | VFloat f => Ok (VFloat (f * c)%float)
  | VInt z =>
      match float_of_int z with
      | Ok f => Ok (VFloat (f * c)%float)
      | Raise e => Raise e
      end
  | VBool b =>
      match float_of_int (Z_of_bool b) with
      | Ok f => Ok (VFloat (f * c)%float)
      | Raise e => Raise e
      end
  | VStr _ => Raise (Exc TypeError "can't multiply sequence by non-int of type 'float'")
  | VNone => Raise (Exc TypeError
                      "unsupported operand type(s) for *: 'NoneType' and 'float'")
  end.

(** [d[k]] on a dict. *)
Definition subscript (d : gmap string value) (k : string) : result value :=
  match d !! k with
  | Some v => Ok v
  | None => Raise (key_error k)
  end.

(** [k in d.keys()]. *)
Definition has_key (d : gmap string value) (k : string) : bool :=
  bool_decide (is_Some (d !! k)).

(** [name[:2]]: defined on strings only. *)
Definition slice2 (name : value) : result string :=
  match name with
  | VStr s => Ok (String.substring 0 2 s)
  | _ => Raise (Exc TypeError ("'" +:+ type_name name +:+ "' object is not subscriptable"))
  end.

(** [x in l] for a list of strings. *)
Definition in_list (x : string) (l : list string) : bool :=
  existsb (String.eqb x) l.

(** [needle in hay] for strings. *)
Fixpoint contains (needle hay : string) : bool :=
  String.prefix needle hay ||
  match hay with
  | EmptyString => false
  | String _ hay' => contains needle hay'
  end.

(** ** [combine_dicts] *)

(** The arguments of [combine_dicts] are arbitrary objects; only the
    [type(x) == dict] test tells them apart. *)
Inductive pyobj : Type :=
  | PyDict (d : gmap string value)
  | PyOther (v : value).

Definition combine_dicts (to_dict from_dict : pyobj) : gmap string value :=
  match to_dict, from_dict with
  | PyDict t, PyDict f => map_fold (λ key v acc, <[key := v]> acc) t f
  | _, _ => ∅
  end.

(** ** The instance and the monad of its methods *)

(** [self.events] starts as a list and is a list in [get_events]; line 183
    of [get_telemetry] stores an empty dict in it. *)
Inductive events_store : Type :=
  | EvList (l : list entry)
  | EvDict.

Record iface : Type := Iface {
  connected : bool;
  full_telemetry : gmap string value;
  basic_telemetry : gmap string value;
  indicators : gmap string value;
  state : gmap string value;
  last_event_ID : Z;
  last_comment_ID : Z;
  comments : list entry;
  events : events_store;
  status : Z
}.

(** [TelemInterface.__init__]. *)
Definition init : iface :=
  {| connected := false;
     full_telemetry := ∅;
     basic_telemetry := ∅;
     indicators := ∅;
     state := ∅;
     last_event_ID := -1;
     last_comment_ID := -1;
     comments := [];
     events := EvList [];
     status := Status.WT_NOT_RUNNING |}.

Definition set_connected (v : bool) (s : iface) : iface :=
  Iface v (full_telemetry s) (basic_telemetry s) (indicators s) (state s)
        (last_event_ID s) (last_comment_ID s) (comments s) (events s) (status s).
Definition set_full_telemetry (v : gmap string value) (s : iface) : iface :=
  Iface (connected s) v (basic_telemetry s) (indicators s) (state s)
        (last_event_ID s) (last_comment_ID s) (comments s) (events s) (status s).
Definition set_basic_telemetry (v : gmap string value) (s : iface) : iface :=
  Iface (connected s) (full_telemetry s) v (indicators s) (state s)
        (last_event_ID s) (last_comment_ID s) (comments s) (events s) (status s).
Definition set_indicators (v : gmap string value) (s : iface) : iface :=
  Iface (connected s) (full_telemetry s) (basic_telemetry s) v (state s)
        (last_event_ID s) (last_comment_ID s) (comments s) (events s) (status s).
Definition set_state (v : gmap string value) (s : iface) : iface :=
  Iface (connected s) (full_telemetry s) (basic_telemetry s) (indicators s) v
        (last_event_ID s) (last_comment_ID s) (comments s) (events s) (status s).
Definition set_last_event_ID (v : Z) (s : iface) : iface :=
  Iface (connected s) (full_telemetry s) (basic_telemetry s) (indicators s) (state s)
        v (last_comment_ID s) (comments s) (events s) (status s).
Definition set_last_comment_ID (v : Z) (s : iface) : iface :=
  Iface (connected s) (full_telemetry s) (basic_telemetry s) (indicators s) (state s)
        (last_event_ID s) v (comments s) (events s) (status s).
Definition set_comments (v : list entry) (s : iface) : iface :=
  Iface (connected s) (full_telemetry s) (basic_telemetry s) (indicators s) (state s)
        (last_event_ID s) (last_comment_ID s) v (events s) (status s).
Definition set_events (v : events_store) (s : iface) : iface :=
  Iface (connected s) (full_telemetry s) (basic_telemetry s) (indicators s) (state s)
        (last_event_ID s) (last_comment_ID s) (comments s) v (status s).
Definition set_status (v : Z) (s : iface) : iface :=
  Iface (connected s) (full_telemetry s) (basic_telemetry s) (indicators s) (state s)
        (last_event_ID s) (last_comment_ID s) (comments s) (events s) v.

(** A method body: from the instance to an outcome and the instance as
    the body left it. *)
Definition M (A : Type) : Type := iface → result A * iface.

Definition ret {A} (a : A) : M A := λ s, (Ok a, s).
Definition raise {A} (e : exc) : M A := λ s, (Raise e, s).
Definition bind {A B} (m : M A) (k : A → M B) : M B :=
  λ s, match m s with
       | (Ok a, s') => k a s'
       | (Raise e, s') => (Raise e, s')
       end.
Definition lift {A} (r : result A) : M A := λ s, (r, s).
Definition gets {A} (f : iface → A) : M A := λ s, (Ok (f s), s).
(** A call of a method that reads the instance and does not change it. *)
Definition pure_call {A} (f : iface → result A) : M A := λ s, (f s, s).
Definition modify (f : iface → iface) : M unit := λ s, (Ok tt, f s).

Declare Scope py_scope.
Delimit Scope py_scope with py.
Notation "x <- m ;; k" := (bind m (λ x, k))
  (at level 100, m at next level, right associativity) : py_scope.
Notation "m ;; k" := (bind m (λ _, k))
  (at level 100, right associativity) : py_scope.
Local Open Scope py_scope.

(** [try: body except ...]: [handlers e] is the first clause that matches
    [e], if any; an exception no clause matches goes on. *)
Definition try_except {A} (body : M A) (handlers : exc → option (M A)) : M A :=
  λ s, match body s with
       | (Ok a, s') => (Ok a, s')
       | (Raise e, s') =>
           match handlers e with
           | Some h => h s'
           | None => (Raise e, s')
           end
       end.

(** [except (C1, ..., Cn): h].  None of the classes named in the clauses of
    this module has a proper subclass among [exc_class], so matching is
    membership. *)
Definition class_in (c : exc_class) (classes : list exc_class) : bool :=
  existsb (λ c', bool_decide (c = c')) classes.

Definition except {A} (classes : list exc_class) (h : M A) : exc → option (M A) :=
  λ e, if class_in (exc_type e) classes then Some h else None.

(** [except Exception as e: h e]. *)
Definition except_Exception {A} (h : exc → M A) : exc → option (M A) :=
  λ e, Some (h e).

(** [self.indicators[k] = v] and the like. *)
Definition setitem_indicators (k : string) (v : value) : M unit :=
  modify (λ s, set_indicators (<[k := v]> (indicators s)) s).
Definition setitem_basic (k : string) (v : value) : M unit :=
  modify (λ s, set_basic_telemetry (<[k := v]> (basic_telemetry s)) s).
Definition setitem_full (k : string) (v : value) : M unit :=
  modify (λ s, set_full_telemetry (<[k := v]> (full_telemetry s)) s).

(** [self.indicators[k]], [self.state[k]]. *)
Definition getitem (d : iface → gmap string value) (k : string) : M value :=
  λ s, (subscript (d s) k, s).

(** ** The collaborators *)

(** One call's view of the outside: each field is what the corresponding
    request or [MapInfo] access does when the method reaches it.  The two
    log requests carry the watermark in their URL. *)
Record world : Type := World {
  map_download_files : result unit;
  map_parse_meta : result unit;
  map_check_battle : result bool;
  map_player_lat : result value;
  map_player_lon : result value;
  (** [get(URL_INDICATORS).json()] *)
  get_indicators : result (gmap string value);
  (** [get(URL_STATE).json()] *)
  get_state : result (gmap string value);
  (** [get(URL_COMMENTS.format(IP_ADDRESS, lastId)).json()] *)
  get_gamechat : Z → result (list entry);
  (** [get(URL_EVENTS.format(IP_ADDRESS, lastDmg)).json()['damage']] *)
  get_hudmsg : Z → result (list entry)
}.

(** ** [get_comments] *)

(** [[comment['id'] for comment in l]]: the first entry without an ['id']
    raises. *)
Fixpoint ids_of (l : list entry) : result (list Z) :=
  match l with
  | [] => Ok []
  | c :: l' =>
      match entry_id c with
      | None => Raise (key_error "id")
      | Some i =>
          match ids_of l' with
          | Ok ids => Ok (i :: ids)
          | Raise e => Raise e
          end
      end
  end.

(** [max(l)]. *)
Definition py_max (l : list Z) : result Z :=
  match l with
  | [] => Raise (Exc ValueError "max() arg is an empty sequence")
  | i :: l' => Ok (fold_left Z.max l' i)
  end.

Definition get_comments (w : world) : M (list entry) :=
  last <- gets last_comment_ID ;;
  comments_response <- lift (get_gamechat w last) ;;
  modify (λ s, set_comments (comments s ++ comments_response) s) ;;
  cs <- gets comments ;;
  (match cs with
   | [] => ret tt
   | _ :: _ =>
       ids <- lift (ids_of cs) ;;
       m <- lift (py_max ids) ;;
       modify (set_last_comment_ID m)
   end) ;;
  gets comments.

(** ** [get_events] *)

(** [self.events.extend(l)]. *)
Definition events_extend (l : list entry) : M unit :=
  ev <- gets events ;;
  match ev with
  | EvList old => modify (set_events (EvList (old ++ l)))
  | EvDict => raise (Exc AttributeError "'dict' object has no attribute 'extend'")
  end.

(** [self.events[-1]]. *)
Definition events_last : M entry :=
  ev <- gets events ;;
  match ev with
  | EvList l =>
      match last l with
      | Some e => ret e
      | None => raise (Exc IndexError "list index out of range")
      end
  | EvDict => raise (Exc KeyError "-1")
  end.

(** [e['id']]. *)
Definition entry_getid (e : entry) : result Z :=
  match entry_id e with
  | Some i => Ok i
  | None => Raise (key_error "id")
  end.

Definition get_events (w : world) : M events_store :=
  try_except
    (last <- gets last_event_ID ;;
     damage <- lift (get_hudmsg w last) ;;
     events_extend damage)
    (except_Exception (λ _, ret tt)) ;;
  try_except
    (e <- events_last ;;
     i <- lift (entry_getid e) ;;
     modify (set_last_event_ID i))
    (except [IndexError] (ret tt)) ;;
  gets events.

(** ** [find_altitude] *)

Definition find_altitude (self : iface) : result value :=
  match subscript (indicators self) "type" with
  | Raise e => Raise e
  | Ok name =>
      match slice2 name with
      | Raise e => Raise e
      | Ok prefix =>
          if in_list prefix METRICS_PLANES then
            if has_key (indicators self) "altitude_10k" then
              match subscript (indicators self) "altitude_10k" with
              | Ok v => py_mul_float v FT_TO_M
              | Raise e => Raise e
              end
            else if has_key (indicators self) "altitude_hour" then
              match subscript (indicators self) "altitude_hour" with
              | Ok v => py_mul_float v FT_TO_M
              | Raise e => Raise e
              end
            else if has_key (indicators self) "altitude_min" then
              match subscript (indicators self) "altitude_min" with
              | Ok v => py_mul_float v FT_TO_M
              | Raise e => Raise e
              end
            else Ok (VInt 0)
          else
            if has_key (indicators self) "altitude_10k" then
              subscript (indicators self) "altitude_10k"
            else if has_key (indicators self) "altitude_hour" then
              subscript (indicators self) "altitude_hour"
            else if has_key (indicators self) "altitude_min" then
              subscript (indicators self) "altitude_min"
            else Ok (VInt 0)
      end
  end.

(** ** [get_telemetry] *)

Definition NEEDLE : string := "Failed to establish a new connection".

(** The clause [except Exception as e] shared by both polls; the second
    branch also prints the traceback, which leaves the instance alone. *)
Definition status_of_exception (e : exc) : Z :=
  if contains NEEDLE (exc_str e) then Status.WT_NOT_RUNNING
  else Status.OTHER_ERROR.

(** [try: self.indicators[k] = -self.indicators[k]
     except KeyError: self.indicators[k] = 0] *)
Definition fix_sign (k : string) : M unit :=
  try_except
    (x <- getitem indicators k ;;
     nx <- lift (py_neg x) ;;
     setitem_indicators k nx)
    (except [KeyError] (setitem_indicators k (VInt 0))).

(** [try: self.basic_telemetry[b] = self.state[k]
     except KeyError: self.basic_telemetry[b] = None] *)
Definition copy_state_field (b k : string) : M unit :=
  try_except
    (x <- getitem state k ;;
     setitem_basic b x)
    (except [KeyError] (setitem_basic b VNone)).

(** [self.indicators['valid'] and self.state['valid']], as the [if] reads it. *)
Definition both_valid : M bool :=
  v1 <- getitem indicators "valid" ;;
  if truthy v1 then
    v2 <- getitem state "valid" ;;
    ret (truthy v2)
  else ret false.

(** Lines 187-230: the body of the inner [try]. *)
Definition normalize (w : world) : M unit :=
  fix_sign "aviahorizon_pitch" ;;
  fix_sign "aviahorizon_roll" ;;
  alt <- pure_call find_altitude ;;
  setitem_indicators "alt_m" alt ;;
  modify (λ s, set_full_telemetry
                 (combine_dicts (PyDict (full_telemetry s)) (PyDict (indicators s))) s) ;;
  modify (λ s, set_full_telemetry
                 (combine_dicts (PyDict (full_telemetry s)) (PyDict (state s))) s) ;;
  x <- getitem indicators "type" ;; setitem_basic "airframe" x ;;
  x <- getitem indicators "aviahorizon_roll" ;; setitem_basic "roll" x ;;
  x <- getitem indicators "aviahorizon_pitch" ;; setitem_basic "pitch" x ;;
  x <- getitem indicators "alt_m" ;; setitem_basic "altitude" x ;;
  x <- lift (map_player_lat w) ;; setitem_basic "lat" x ;;
  x <- lift (map_player_lat w) ;; setitem_full "lat" x ;;
  x <- lift (map_player_lon w) ;; setitem_basic "lon" x ;;
  x <- lift (map_player_lon w) ;; setitem_full "lon" x ;;
  copy_state_field "IAS" "IAS, km/h" ;;
  copy_state_field "flapState" "flaps, %" ;;
  copy_state_field "gearState" "gear, %" ;;
  modify (set_connected true) ;;
  modify (set_status Status.IN_FLIGHT).

(** Lines 166-183: the requests of a poll. *)
Definition fetch_all (w : world) (comments_flag events_flag : bool) : M unit :=
  lift (map_download_files w) ;;
  lift (map_parse_meta w) ;;
  ind <- lift (get_indicators w) ;;
  modify (set_indicators ind) ;;
  st <- lift (get_state w) ;;
  modify (set_state st) ;;
  (if comments_flag then get_comments w ;; ret tt
   else modify (set_comments [])) ;;
  (if events_flag then get_events w ;; ret tt
   else modify (set_events EvDict)).

(** Lines 185-235: the [if] on the two [valid] flags. *)
Definition classify (w : world) : M unit :=
  ok <- both_valid ;;
  if ok then
    try_except (normalize w)
      (except [KeyError; AttributeError] (modify (set_status Status.IN_MENU)))
  else modify (set_status Status.NO_MISSION).

Definition get_telemetry (w : world) (comments_flag events_flag : bool) : M bool :=
  modify (set_connected false) ;;
  modify (set_full_telemetry ∅) ;;
  modify (set_basic_telemetry ∅) ;;
  try_except
    (fetch_all w comments_flag events_flag ;;
     classify w)
    (except_Exception (λ e, modify (set_status (status_of_exception e)))) ;;
  gets connected.

(** ** [get_status] *)

Definition get_status (w : world) : M Z :=
  modify (set_connected false) ;;
  modify (set_full_telemetry ∅) ;;
  modify (set_basic_telemetry ∅) ;;
  try_except
    (in_battle <- lift (map_check_battle w) ;;
     if negb in_battle then ret Status.IN_MENU
     else
       ind <- lift (get_indicators w) ;;
       modify (set_indicators ind) ;;
       st <- lift (get_state w) ;;
       modify (set_state st) ;;
       get_events w ;;
       ok <- both_valid ;;
       if ok then
         try_except
           (x <- getitem indicators "type" ;;
            setitem_basic "airframe" x ;;
            modify (set_connected true) ;;
            ret Status.IN_FLIGHT)
           (except [KeyError; AttributeError] (ret Status.IN_MENU))
       else ret Status.NO_MISSION)
    (λ e, if bool_decide (exc_type e = ConnectTimeout)
          then Some (ret Status.WT_NOT_RUNNING)
          else Some (ret (status_of_exception e))).


(** ** Calls, reachable instances *)

(** The public methods a driver calls on an instance. *)
Inductive call : Type :=
  | CallGetComments
  | CallGetEvents
  | CallGetTelemetry (comments_flag events_flag : bool)
  | CallGetStatus.

(** The instance a call leaves behind, whether it returned or raised. *)
Definition run_call (c : call) (w : world) (s : iface) : iface :=
  match c with
  | CallGetComments => snd (get_comments w s)
  | CallGetEvents => snd (get_events w s)
  | CallGetTelemetry cf ef => snd (get_telemetry w cf ef s)
  | CallGetStatus => snd (get_status w s)
  end.

(** The instances a driver can hold: a fresh one, and what any call
    against any collaborator answers makes of one. *)
Inductive reachable : iface → Prop :=
  | reachable_init : reachable init
  | reachable_call c w s : reachable s → reachable (run_call c w s).

(** When the event list ends in an entry that has an id, the watermark is
    that id. *)
Definition events_inv (s : iface) : Prop :=
  match events s with
  | EvList l =>
      match last l with
      | Some e =>
          match entry_id e with
          | Some i => last_event_ID s = i
          | None => True
          end
      | None => True
      end
  | EvDict => True
  end.

(** When the comment list is not empty and all its entries have ids, the
    watermark is their maximum. *)
Definition comments_inv (s : iface) : Prop :=
  match ids_of (comments s) with
  | Ok (i :: ids) => last_comment_ID s = fold_left Z.max ids i
  | _ => True
  end.

(** Both invariants together. *)
Definition logs_inv (s : iface) : Prop := events_inv s ∧ comments_inv s.

(** The server honours [lastId] and [lastDmg]: an answer carries no id
    below the watermark of its request. *)
Definition ids_from (last : Z) (l : list entry) : Prop :=
  Forall (λ c, ∀ i, entry_id c = Some i → last ≤ i) l.

Definition honest (w : world) : Prop :=
  (∀ last l, get_gamechat w last = Ok l → ids_from last l) ∧
  (∀ last l, get_hudmsg w last = Ok l → ids_from last l).

(** The event list after the first [try] of [get_events]: extended when the
    request answered and the attribute is a list, untouched otherwise. *)
Definition events_fetched (w : world) (s : iface) : iface :=
  match get_hudmsg w (last_event_ID s), events s with
  | Ok l, EvList old => set_events (EvList (old ++ l)) s
  | _, _ => s
  end.

(** The attributes of the two logs, and the others. *)
Definition logs (s : iface) : Z * Z * list entry * events_store :=
  (last_event_ID s, last_comment_ID s, comments s, events s).

Definition tele (s : iface)
    : bool * gmap string value * gmap string value * gmap string value
      * gmap string value * Z :=
  (connected s, full_telemetry s, basic_telemetry s, indicators s, state s, status s).

(** A property of the instance that only reads the attributes of the logs. *)
Definition framed (I : iface → Prop) : Prop :=
  ∀ s s', logs s = logs s' → I s → I s'.

(** [self.indicators] after the two sign corrections of [get_telemetry]. *)
Definition sign_fixed (k : string) (ind : gmap string value) (ind' : gmap string value) : Prop :=
  match ind !! k with
  | None => ind' = <[k := VInt 0]> ind
  | Some x => ∃ nx, py_neg x = Ok nx ∧ ind' = <[k := nx]> ind
  end.

(** The same collaborators, with another answer to the HUD log request. *)
Definition with_hudmsg (h : Z → result (list entry)) (w : world) : world :=
  {| map_download_files := map_download_files w;
     map_parse_meta := map_parse_meta w;
     map_check_battle := map_check_battle w;
     map_player_lat := map_player_lat w;
     map_player_lon := map_player_lon w;
     get_indicators := get_indicators w;
     get_state := get_state w;
     get_gamechat := get_gamechat w;
     get_hudmsg := h |}.

(** ** Outcomes of a method body *)

(** [wp m Qn Qe s]: run from [s], the body [m] either returns [a] in an
    instance satisfying [Qn a], or raises [e] in one satisfying [Qe e]. *)
Definition wp {A} (m : M A) (Qn : A → iface → Prop) (Qe : exc → iface → Prop)
    (s : iface) : Prop :=
  match m s with
  | (Ok a, s') => Qn a s'
  | (Raise e, s') => Qe e s'
  end.

(** ** Specification-level readings *)

(** The altitude field [find_altitude] reads, in the words of the
    specification: the first one present among [altitude_10k],
    [altitude_hour], [altitude_min]. *)
Definition preferred_altitude (ind : gmap string value) : option value :=
  match ind !! "altitude_10k" with
  | Some v => Some v
  | None =>
      match ind !! "altitude_hour" with
      | Some v => Some v
      | None => ind !! "altitude_min"
      end
  end.

(** The airframe reports in feet: the first two characters of its name
    are on the allow-list. *)
Definition imperial (name : string) : bool :=
  in_list (String.substring 0 2 name) METRICS_PLANES.

(** ** Scenarios *)

Definition no_log : Z → result (list entry) := λ _, Ok [].

(** Scenario 1 of the specification. *)
Definition scenario1_indicators : gmap string value :=
  <["valid" := VBool true]>
    (<["type" := VStr "fw190"]>
      (<["aviahorizon_pitch" := VInt 2]>
        (<["aviahorizon_roll" := VInt (-3)]>
          (<["altitude_10k" := VInt 1000]> ∅)))).

Definition scenario1_state : gmap string value :=
  <["valid" := VBool true]> (<["IAS, km/h" := VInt 350]> ∅).

Definition scenario1_world (lat lon : value) : world :=
  {| map_download_files := Ok tt;
     map_parse_meta := Ok tt;
     map_check_battle := Ok true;
     map_player_lat := Ok lat;
     map_player_lon := Ok lon;
     get_indicators := Ok scenario1_indicators;
     get_state := Ok scenario1_state;
     get_gamechat := no_log;
     get_hudmsg := no_log |}.

(** 304.8 as a binary64 number. *)
Definition F304_8 : float := 0x1.30ccccccccccdp+8%float.

(** A world whose snapshots are [ind] and [st] and whose other
    collaborators answer without incident. *)
Definition quiet_world (ind st : gmap string value) : world :=
  {| map_download_files := Ok tt;
     map_parse_meta := Ok tt;
     map_check_battle := Ok true;
     map_player_lat := Ok (VFloat 0%float);
     map_player_lon := Ok (VFloat 0%float);
     get_indicators := Ok ind;
     get_state := Ok st;
     get_gamechat := no_log;
     get_hudmsg := no_log |}.

(** [requests] reports a connect timeout on the indicators request. *)
Definition connect_timeout : exc :=
  Exc ConnectTimeout
    "HTTPConnectionPool(host='127.0.0.1', port=8111): Max retries exceeded with url: /indicators (Caused by ConnectTimeoutError(<urllib3.connection.HTTPConnection object at 0x7f3c5c0b7d60>, 'Connection to 127.0.0.1 timed out. (connect timeout=3)'))".

Definition timeout_world : world :=
  {| map_download_files := Ok tt;
     map_parse_meta := Ok tt;
     map_check_battle := Ok true;
     map_player_lat := Ok (VFloat 0%float);
     map_player_lon := Ok (VFloat 0%float);
     get_indicators := Raise connect_timeout;
     get_state := Raise connect_timeout;
     get_gamechat := λ _, Raise connect_timeout;
     get_hudmsg := λ _, Raise connect_timeout |}.

(** The game is not running: every request is refused. *)
Definition connection_refused : exc :=
  Exc ConnectionError
    "HTTPConnectionPool(host='127.0.0.1', port=8111): Max retries exceeded with url: /indicators (Caused by NewConnectionError('<urllib3.connection.HTTPConnection object at 0x7f3c5c0b7d60>: Failed to establish a new connection: [Errno 111] Connection refused'))".

Definition refused_world : world :=
  {| map_download_files := Ok tt;
     map_parse_meta := Ok tt;
     map_check_battle := Ok true;
     map_player_lat := Ok (VFloat 0%float);
     map_player_lon := Ok (VFloat 0%float);
     get_indicators := Raise connection_refused;
     get_state := Raise connection_refused;
     get_gamechat := λ _, Raise connection_refused;
     get_hudmsg := λ _, Raise connection_refused |}.

(** In flight, but the chat request answers with a body that is not JSON. *)
Definition bad_chat : exc :=
  Exc JSONDecodeError "Expecting value: line 1 column 1 (char 0)".

Definition bad_chat_world : world :=
  {| map_download_files := Ok tt;
     map_parse_meta := Ok tt;
     map_check_battle := Ok true;
     map_player_lat := Ok (VFloat 0%float);
     map_player_lon := Ok (VFloat 0%float);
     get_indicators := Ok scenario1_indicators;
     get_state := Ok scenario1_state;
     get_gamechat := λ _, Raise bad_chat;
     get_hudmsg := no_log |}.

(** Snapshots of a player in the hangar, and of one with no mission. *)
Definition menu_indicators : gmap string value := <["valid" := VBool true]> ∅.
Definition valid_state : gmap string value := <["valid" := VBool true]> ∅.
Definition invalid_indicators : gmap string value := <["valid" := VBool false]> ∅.

(** The instance after a default poll [get_telemetry()] of a fresh
    interface, taken in the hangar. *)
Definition after_default_poll : iface :=
  run_call (CallGetTelemetry false false) (quiet_world menu_indicators valid_state) init.

(** Answers to the HUD log request that carry one event each. *)
Definition one_event (i : Z) : Z → result (list entry) :=
  λ _, Ok [Entry (Some i) ∅].

Definition hud_world (i : Z) : world :=
  {| map_download_files := Ok tt;
     map_parse_meta := Ok tt;
     map_check_battle := Ok true;
     map_player_lat := Ok (VFloat 0%float);
     map_player_lon := Ok (VFloat 0%float);
     get_indicators := Ok menu_indicators;
     get_state := Ok valid_state;
     get_gamechat := no_log;
     get_hudmsg := one_event i |}.

(** A server that numbers its entries from the watermark on. *)
Definition next_entry : Z → result (list entry) :=
  λ last, Ok [Entry (Some (last + 1)) ∅].

Definition honest_world : world :=
  {| map_download_files := Ok tt;
     map_parse_meta := Ok tt;
     map_check_battle := Ok true;
     map_player_lat := Ok (VFloat 0%float);
     map_player_lon := Ok (VFloat 0%float);
     get_indicators := Ok menu_indicators;
     get_state := Ok valid_state;
     get_gamechat := next_entry;
     get_hudmsg := next_entry |}.

(** The flag and the status a poll ends with. *)
Definition poll_consistent (s : iface) : Prop :=
  (connected s = true ∧ status s = Status.IN_FLIGHT) ∨
  (connected s = false ∧
   (status s = Status.IN_MENU ∨ status s = Status.NO_MISSION ∨
    status s = Status.WT_NOT_RUNNING ∨ status s = Status.OTHER_ERROR)).

(** The same collaborators, with another answer to the battle check. *)
Definition with_check_battle (b : result bool) (w : world) : world :=
  {| map_download_files := map_download_files w;
     map_parse_meta := map_parse_meta w;
     map_check_battle := b;
     map_player_lat := map_player_lat w;
     map_player_lon := map_player_lon w;
     get_indicators := get_indicators w;
     get_state := get_state w;
     get_gamechat := get_gamechat w;
     get_hudmsg := get_hudmsg w |}.

(** What every call keeps true of the telemetry attributes: the status is
    one of the five codes, and a connected instance publishes the airframe
    of its indicators. *)
Definition tele_inv (s : iface) : Prop :=
  status s ∈ [Status.IN_FLIGHT; Status.IN_MENU; Status.NO_MISSION;
              Status.WT_NOT_RUNNING; Status.OTHER_ERROR] ∧
  (connected s = true →
   ∃ ty, indicators s !! "type" = Some ty ∧
         basic_telemetry s !! "airframe" = Some ty).

(** Scenario 1 before the map collaborator knows the player's position:
    reading [player_lat] raises. *)
Definition no_position : exc :=
  Exc AttributeError "'MapInfo' object has no attribute 'player_lat'".

Definition no_position_world : world :=
  {| map_download_files := Ok tt;
     map_parse_meta := Ok tt;
     map_check_battle := Ok true;
     map_player_lat := Raise no_position;
     map_player_lon := Raise no_position;
     get_indicators := Ok scenario1_indicators;
     get_state := Ok scenario1_state;
     get_gamechat := no_log;
     get_hudmsg := no_log |}.

(** [v * 0.3048] in the words of the specification, for the numbers a
    snapshot can hold: a float as it is, an integer (or a boolean, which
    Python counts as 0 or 1) through its nearest double when it has one.
    The constant is written out: it is the double nearest to 0.3048. *)
Definition times_0_3048 (v : value) : option value :=
  match v with
  | VFloat f => Some (VFloat (f * 0x1.381d7dbf487fdp-2)%float)
  | VInt z =>
      match float_of_int z with
      | Ok f => Some (VFloat (f * 0x1.381d7dbf487fdp-2)%float)
      | Raise _ => None
      end
  | VBool b => Some (VFloat ((if b then 1 else 0) * 0x1.381d7dbf487fdp-2)%float)
  | _ => None
  end.

(** An imperial airframe that reports two altitude fields. *)
Definition p51_indicators : gmap string value :=
  <["type" := VStr "p-51d"]>
    (<["altitude_hour" := VInt 1000]> (<["altitude_min" := VInt 20]> ∅)).

(** A snapshot whose [type] is a number. *)
Definition numeric_type_indicators : gmap string value :=
  <["type" := VInt 190]> (<["altitude_10k" := VInt 1000]> ∅).

(** * Properties *)

(** ** [combine_dicts] is a right-biased merge *)

Lemma combine_dicts_union (t f : gmap string value) :
  combine_dicts (PyDict t) (PyDict f) = f ∪ t.
Proof.
  unfold combine_dicts.
  apply (map_fold_weak_ind (λ r m, r = m ∪ t)).
  - by rewrite (left_id_L ∅ (∪)).
  - intros i x m r _ ->. by rewrite insert_union_l.
Qed.

Lemma combine_dicts_not_dict_l v from_dict :
  combine_dicts (PyOther v) from_dict = ∅.
Proof. reflexivity. Qed.

Lemma combine_dicts_not_dict_r to_dict v :
  combine_dicts to_dict (PyOther v) = ∅.
Proof. by destruct to_dict. Qed.

(** ** [find_altitude] *)

Lemma has_key_lookup (d : gmap string value) k :
  has_key d k = match d !! k with Some _ => true | None => false end.
Proof.
  unfold has_key. destruct (d !! k) eqn:E.
  - apply bool_decide_eq_true. eauto.
  - apply bool_decide_eq_false. by intros [? ?].
Qed.

Lemma find_altitude_missing_type self :
  indicators self !! "type" = None →
  find_altitude self = Raise (key_error "type").
Proof. intros H. unfold find_altitude, subscript. by rewrite H. Qed.

(** On a snapshot whose [type] is a string, [find_altitude] is the first
    present field among [altitude_10k], [altitude_hour], [altitude_min],
    passed through Python's product with [FT_TO_M] on the allow-list branch
    and returned as it is on the other; 0 on both when none is present. *)
Lemma find_altitude_eq (self : iface) (name : string) :
  indicators self !! "type" = Some (VStr name) →
  find_altitude self =
    match preferred_altitude (indicators self) with
    | Some v => if imperial name then py_mul_float v FT_TO_M else Ok v
    | None => Ok (VInt 0)
    end.
Proof.
  intros Htype.
  unfold find_altitude, preferred_altitude, imperial, subscript.
  rewrite Htype. cbn [slice2].
  rewrite !has_key_lookup.
  destruct (in_list (String.substring 0 2 name) METRICS_PLANES);
    destruct (indicators self !! "altitude_10k");
    destruct (indicators self !! "altitude_hour");
    destruct (indicators self !! "altitude_min"); reflexivity.
Qed.

(** C2, amended. On a snapshot whose [type] is a string, [find_altitude]
    looks at the first present field among [altitude_10k], [altitude_hour],
    [altitude_min]. With none present it returns the integer 0 on both
    branches. When the first two characters of [type] are on the allow-list
    it returns that field times 0.3048, as a float, and raises when the
    field is no number (or an integer beyond the float range); otherwise it
    returns the field as it is, whatever it holds. *)
Theorem find_altitude_spec (self : iface) (name : string) :
  indicators self !! "type" = Some (VStr name) →
  match preferred_altitude (indicators self) with
  | None => find_altitude self = Ok (VInt 0)
  | Some v =>
      if imperial name then
        match times_0_3048 v with
        | Some m => find_altitude self = Ok m
        | None => ∃ ex, find_altitude self = Raise ex
        end
      else find_altitude self = Ok v
  end.
Proof.
  intros Htype. rewrite (find_altitude_eq self name Htype).
  destruct (preferred_altitude (indicators self)) as [v|]; [|reflexivity].
  destruct (imperial name); [|reflexivity].
  destruct v as [|b|z|f|str]; cbn [times_0_3048 py_mul_float].
  - by eexists.
  - by destruct b.
  - destruct (float_of_int z); [reflexivity|by eexists].
  - reflexivity.
  - by eexists.
Qed.

Lemma find_altitude_spec_witness :
  find_altitude (set_indicators p51_indicators init) = Ok (VFloat F304_8).
Proof.
  assert (indicators (set_indicators p51_indicators init) !! "type"
          = Some (VStr "p-51d")) as Hty by reflexivity.
  pose proof (find_altitude_spec (set_indicators p51_indicators init)
                "p-51d" Hty) as H.
  exact H.
Defined.

(** C2 as stated fails: a snapshot can contain the key [type] and make
    [find_altitude] raise instead of returning, here because its [type]
    is a number, which has no first two characters. *)
Lemma find_altitude_type_not_string :
  let self := set_indicators numeric_type_indicators init in
  indicators self !! "type" = Some (VInt 190) ∧
  find_altitude self
    = Raise (Exc TypeError "'int' object is not subscriptable") ∧
  ¬ (∃ v, find_altitude self = Ok v).
Proof.
  cbv zeta. split; [reflexivity|]. split; [reflexivity|].
  intros [v H]. vm_compute in H. discriminate H.
Qed.

(** A string in the chosen field of an imperial airframe raises as well. *)
Example find_altitude_imperial_not_number :
  find_altitude
    (set_indicators (<["type" := VStr "p-51d"]> (<["altitude_10k" := VStr "n/a"]> ∅)) init)
  = Raise (Exc TypeError "can't multiply sequence by non-int of type 'float'").
Proof. reflexivity. Qed.

(** The metric branch of the same function, on scenario 1. *)
Example find_altitude_metric :
  find_altitude (set_indicators scenario1_indicators init) = Ok (VInt 1000).
Proof. reflexivity. Qed.

Example find_altitude_imperial :
  find_altitude
    (set_indicators (<["type" := VStr "p-51d"]> (<["altitude_hour" := VInt 1000]> ∅)) init)
  = Ok (VFloat F304_8).
Proof. reflexivity. Qed.

Example find_altitude_metric_default :
  find_altitude (set_indicators (<["type" := VStr "bf-109"]> ∅) init) = Ok (VInt 0).
Proof. reflexivity. Qed.

(** ** A weakest-precondition reading of method bodies *)

Section WpRules.
Context {A : Type}.
Implicit Types (Qn : A → iface → Prop) (Qe : exc → iface → Prop).

Lemma wp_run (m : M A) Qn Qe s :
  wp m Qn Qe s →
  match fst (m s) with
  | Ok a => Qn a (snd (m s))
  | Raise e => Qe e (snd (m s))
  end.
Proof. unfold wp. by destruct (m s) as [[a|e] s']. Qed.

Lemma wp_mono (m : M A) Qn Qe (Qn' : A → iface → Prop) (Qe' : exc → iface → Prop) s :
  wp m Qn Qe s →
  (∀ a s', Qn a s' → Qn' a s') →
  (∀ e s', Qe e s' → Qe' e s') →
  wp m Qn' Qe' s.
Proof. unfold wp. destruct (m s) as [[a|e] s']; eauto. Qed.

Lemma wp_ret (a : A) Qn Qe s : Qn a s → wp (ret a) Qn Qe s.
Proof. done. Qed.

Lemma wp_raise (e : exc) Qn Qe s : Qe e s → wp (raise e) Qn Qe s.
Proof. done. Qed.

Lemma wp_lift (r : result A) Qn Qe s :
  match r with Ok a => Qn a s | Raise e => Qe e s end → wp (lift r) Qn Qe s.
Proof. done. Qed.

Lemma wp_gets (f : iface → A) Qn Qe s : Qn (f s) s → wp (gets f) Qn Qe s.
Proof. done. Qed.

Lemma wp_bind {B} (m : M B) (k : B → M A) Qn Qe s :
  wp m (λ b, wp (k b) Qn Qe) Qe s → wp (bind m k) Qn Qe s.
Proof. unfold wp, bind. by destruct (m s) as [[b|e] s']. Qed.

Lemma wp_try_except (body : M A) handlers Qn Qe s :
  wp body Qn
     (λ e s', match handlers e with
              | Some h => wp h Qn Qe s'
              | None => Qe e s'
              end) s →
  wp (try_except body handlers) Qn Qe s.
Proof.
  unfold wp, try_except. destruct (body s) as [[a|e] s']; [done|].
  by destruct (handlers e).
Qed.
End WpRules.

Lemma wp_modify (f : iface → iface) (Qn : unit → iface → Prop) Qe s :
  Qn tt (f s) → wp (modify f) Qn Qe s.
Proof. done. Qed.

Lemma wp_getitem (d : iface → gmap string value) k (Qn : value → iface → Prop) Qe s :
  match d s !! k with
  | Some v => Qn v s
  | None => Qe (key_error k) s
  end →
  wp (getitem d k) Qn Qe s.
Proof. unfold wp, getitem, subscript. by destruct (d s !! k). Qed.

(** One step of symbolic execution. *)
Ltac wp_step :=
  lazymatch goal with
  | |- wp (bind _ _) _ _ _ => apply wp_bind
  | |- wp (try_except _ _) _ _ _ => apply wp_try_except
  | |- wp (ret _) _ _ _ => apply wp_ret
  | |- wp (raise _) _ _ _ => apply wp_raise
  | |- wp (lift _) _ _ _ => apply wp_lift
  | |- wp (gets _) _ _ _ => apply wp_gets
  | |- wp (modify _) _ _ _ => apply wp_modify
  | |- wp (getitem _ _) _ _ _ => apply wp_getitem
  | |- wp (setitem_indicators _ _) _ _ _ => apply wp_modify
  | |- wp (setitem_basic _ _) _ _ _ => apply wp_modify
  | |- wp (setitem_full _ _) _ _ _ => apply wp_modify
  end.

Lemma wp_pure_call {A} (f : iface → result A) (Qn : A → iface → Prop) Qe s :
  match f s with Ok a => Qn a s | Raise e => Qe e s end →
  wp (pure_call f) Qn Qe s.
Proof. done. Qed.

Ltac simpl_iface :=
  cbn [connected full_telemetry basic_telemetry indicators state last_event_ID
       last_comment_ID comments events status
       set_connected set_full_telemetry set_basic_telemetry set_indicators
       set_state set_last_event_ID set_last_comment_ID set_comments set_events
       set_status logs tele fst snd] in *.

(** ** The two logs, equationally *)

Lemma get_comments_eq (w : world) (s : iface) :
  get_comments w s =
    match get_gamechat w (last_comment_ID s) with
    | Raise e => (Raise e, s)
    | Ok l =>
        match (comments s ++ l)%list with
        | [] => (Ok [], set_comments [] s)
        | c :: cs =>
            match ids_of (c :: cs) with
            | Raise e => (Raise e, set_comments (c :: cs) s)
            | Ok ids =>
                match py_max ids with
                | Raise e => (Raise e, set_comments (c :: cs) s)
                | Ok m => (Ok (c :: cs), set_last_comment_ID m (set_comments (c :: cs) s))
                end
            end
        end
    end.
Proof.
  unfold get_comments, bind, gets, lift, modify, ret.
  destruct (get_gamechat w (last_comment_ID s)) as [l|e]; [|done].
  simpl_iface. destruct (comments s ++ l)%list as [|c cs]; [done|].
  destruct (ids_of (c :: cs)) as [ids|e]; [|done].
  by destruct (py_max ids).
Qed.

Lemma get_events_eq (w : world) (s : iface) :
  get_events w s =
    let s1 := events_fetched w s in
    match events s1 with
    | EvList l =>
        match last l with
        | None => (Ok (EvList l), s1)
        | Some e =>
            match entry_id e with
            | Some i => (Ok (EvList l), set_last_event_ID i s1)
            | None => (Raise (key_error "id"), s1)
            end
        end
    | EvDict => (Raise (Exc KeyError "-1"), s1)
    end.
Proof.
  unfold get_events, events_fetched, events_extend, events_last, entry_getid,
    try_except, except_Exception, except, bind, gets, lift, modify, ret, raise.
  destruct (get_hudmsg w (last_event_ID s)) as [l|e];
    destruct (events s) as [old|] eqn:Hev; simpl_iface; rewrite ?Hev;
    try reflexivity.
  - destruct (last (old ++ l)%list) as [e|]; [by destruct (entry_id e)|].
    reflexivity.
  - destruct (last old) as [e'|]; [destruct (entry_id e')|];
      simpl; simpl_iface; by rewrite ?Hev.
Qed.

Lemma get_events_dict (w : world) (s : iface) :
  events s = EvDict →
  get_events w s = (Raise (Exc KeyError "-1"), s).
Proof.
  intros Hev. rewrite get_events_eq. unfold events_fetched.
  rewrite Hev. destruct (get_hudmsg w (last_event_ID s)); cbn zeta; by rewrite Hev.
Qed.

Lemma get_comments_tele (w : world) (s : iface) :
  tele (snd (get_comments w s)) = tele s.
Proof.
  rewrite get_comments_eq.
  destruct (get_gamechat w (last_comment_ID s)) as [l|e]; [|done].
  destruct (comments s ++ l)%list as [|c cs]; [done|].
  destruct (ids_of (c :: cs)) as [ids|e]; [|done].
  by destruct (py_max ids).
Qed.

Lemma get_events_tele (w : world) (s : iface) :
  tele (snd (get_events w s)) = tele s.
Proof.
  rewrite get_events_eq. unfold events_fetched. cbn zeta.
  destruct (get_hudmsg w (last_event_ID s)) as [l|e];
    destruct (events s) as [old|] eqn:Hev; simpl_iface; rewrite ?Hev;
    try reflexivity.
  - destruct (last (old ++ l)%list) as [e|]; [by destruct (entry_id e)|done].
  - destruct (last old) as [e'|]; [by destruct (entry_id e')|done].
Qed.

(** [get_comments] only writes [comments] and [last_comment_ID];
    [get_events] only writes [events] and [last_event_ID]. *)
Lemma get_comments_events_untouched (w : world) (s : iface) :
  events (snd (get_comments w s)) = events s ∧
  last_event_ID (snd (get_comments w s)) = last_event_ID s.
Proof.
  rewrite get_comments_eq.
  destruct (get_gamechat w (last_comment_ID s)) as [l|e]; [|done].
  destruct (comments s ++ l)%list as [|c cs]; [done|].
  destruct (ids_of (c :: cs)) as [ids|e]; [|done].
  by destruct (py_max ids).
Qed.

Lemma get_events_comments_untouched (w : world) (s : iface) :
  comments (snd (get_events w s)) = comments s ∧
  last_comment_ID (snd (get_events w s)) = last_comment_ID s.
Proof.
  rewrite get_events_eq. unfold events_fetched. cbn zeta.
  destruct (get_hudmsg w (last_event_ID s)) as [l|e];
    destruct (events s) as [old|] eqn:Hev; simpl_iface; rewrite ?Hev;
    try done.
  - destruct (last (old ++ l)%list) as [e|]; [by destruct (entry_id e)|done].
  - destruct (last old) as [e'|]; [by destruct (entry_id e')|done].
Qed.

(** ** The blocks of a poll *)

Lemma wp_fix_sign k (Qn : unit → iface → Prop) Qe s :
  match indicators s !! k with
  | None => Qn tt (set_indicators (<[k := VInt 0]> (indicators s)) s)
  | Some x =>
      match py_neg x with
      | Ok nx => Qn tt (set_indicators (<[k := nx]> (indicators s)) s)
      | Raise e => Qe e s
      end
  end →
  wp (fix_sign k) Qn Qe s.
Proof.
  intros H. unfold fix_sign. apply wp_try_except, wp_bind, wp_getitem.
  destruct (indicators s !! k) as [x|].
  - apply wp_bind, wp_lift.
    destruct x; simpl in *; first [by apply wp_modify | exact H].
  - unfold except. simpl. by apply wp_modify.
Qed.

Lemma wp_copy_state_field b k (Qn : unit → iface → Prop) Qe s :
  Qn tt (set_basic_telemetry
           (<[b := default VNone (state s !! k)]> (basic_telemetry s)) s) →
  wp (copy_state_field b k) Qn Qe s.
Proof.
  intros H. unfold copy_state_field. apply wp_try_except, wp_bind, wp_getitem.
  destruct (state s !! k) as [x|].
  - by apply wp_modify.
  - unfold except. simpl. by apply wp_modify.
Qed.

Lemma wp_both_valid (Qn : bool → iface → Prop) Qe s :
  match indicators s !! "valid" with
  | None => Qe (key_error "valid") s
  | Some v1 =>
      if truthy v1 then
        match state s !! "valid" with
        | None => Qe (key_error "valid") s
        | Some v2 => Qn (truthy v2) s
        end
      else Qn false s
  end →
  wp both_valid Qn Qe s.
Proof.
  intros H. unfold both_valid. apply wp_bind, wp_getitem.
  destruct (indicators s !! "valid") as [v1|]; [|done].
  destruct (truthy v1).
  - apply wp_bind, wp_getitem. by destruct (state s !! "valid").
  - by apply wp_ret.
Qed.

Lemma wp_fix_sign_merged k (Qn : unit → iface → Prop) Qe s :
  (∀ ind', sign_fixed k (indicators s) ind' → Qn tt (set_indicators ind' s)) →
  (∀ x e, indicators s !! k = Some x → py_neg x = Raise e → Qe e s) →
  wp (fix_sign k) Qn Qe s.
Proof.
  intros Hn He. apply wp_fix_sign. unfold sign_fixed in Hn.
  destruct (indicators s !! k) as [x|] eqn:Hk.
  - destruct (py_neg x) as [nx|e] eqn:Hneg; [|by eapply He].
    apply Hn. eauto.
  - by apply Hn.
Qed.

(** Symbolic execution of a block, one statement at a time; statements that
    read a dict or a collaborator split on what they find. *)
Ltac wp_next :=
  cbv beta;
  lazymatch goal with
  | |- wp (bind _ _) _ _ _ => apply wp_bind
  | |- wp (fix_sign _) _ _ _ =>
      apply wp_fix_sign_merged; [intros ? ? | intros ? ? ? ?]
  | |- wp (copy_state_field _ _) _ _ _ => apply wp_copy_state_field
  | |- wp (pure_call _) _ _ _ => apply wp_pure_call
  | |- wp (getitem _ _) _ _ _ => apply wp_getitem
  | |- wp _ _ _ _ => wp_step
  | |- match (if ?b then _ else _) with _ => _ end => destruct b
  | |- match ?x with _ => _ end =>
      let E := fresh "E" in destruct x eqn:E
  end;
  simpl_iface.

(** Lines 187-230 either finish with the instance connected and
    [full_telemetry] the merge of the corrected indicators, then the state,
    then the player's position, or raise with [connected] still false.
    Either way they leave the logs and the state snapshot alone. *)
Lemma normalize_spec (w : world) (s : iface) :
  connected s = false →
  wp (normalize w)
    (λ _ s',
       connected s' = true ∧ status s' = Status.IN_FLIGHT ∧
       logs s' = logs s ∧ state s' = state s ∧
       ∃ ind1 ind2 alt lat lon,
         sign_fixed "aviahorizon_pitch" (indicators s) ind1 ∧
         sign_fixed "aviahorizon_roll" ind1 ind2 ∧
         find_altitude (set_indicators ind2 s) = Ok alt ∧
         indicators s' = <["alt_m" := alt]> ind2 ∧
         map_player_lat w = Ok lat ∧ map_player_lon w = Ok lon ∧
         full_telemetry s' =
           <["lon" := lon]> (<["lat" := lat]>
             (state s ∪ (indicators s' ∪ full_telemetry s))))
    (λ _ s', connected s' = false ∧ status s' = status s ∧ logs s' = logs s)
    s.
Proof.
  intros Hc. unfold normalize.
  repeat wp_next; try done.
  rewrite !combine_dicts_union.
  repeat split; try done.
  eexists _, _, _, _, _. repeat split; eauto.
Qed.

Lemma wp_call {A} (m : M A) (Qn : A → iface → Prop) Qe s :
  match fst (m s) with
  | Ok a => Qn a (snd (m s))
  | Raise e => Qe e (snd (m s))
  end →
  wp m Qn Qe s.
Proof. unfold wp. by destruct (m s) as [[a|e] s']. Qed.

(** A block whose every outcome satisfies [Q]. *)
Lemma wp_always {A} (m : M A) (Q : iface → Prop) s :
  Q (snd (m s)) → wp m (λ _, Q) (λ _, Q) s.
Proof. unfold wp. by destruct (m s) as [[a|e] s']. Qed.

Lemma wp_always_inv {A} (m : M A) (Q : iface → Prop) s :
  wp m (λ _, Q) (λ _, Q) s → Q (snd (m s)).
Proof. unfold wp. by destruct (m s) as [[a|e] s']. Qed.

(** Lines 185-235 never touch the logs. *)
Lemma classify_logs (w : world) (s : iface) :
  logs (snd (classify w s)) = logs s.
Proof.
  apply (wp_always_inv (classify w) (λ s', logs s' = logs s)).
  unfold classify. apply wp_bind, wp_both_valid.
  destruct (indicators s !! "valid") as [v1|]; [|done].
  assert (wp (try_except (normalize w)
                (except [KeyError; AttributeError]
                   (modify (set_status Status.IN_MENU))))
             (λ _ s', logs s' = logs s) (λ _ s', logs s' = logs s) s) as Hn.
  { apply wp_try_except. unfold normalize, except.
    repeat wp_next; done. }
  destruct (truthy v1); [|done].
  destruct (state s !! "valid") as [v2|]; [|done].
  destruct (truthy v2); [exact Hn|done].
Qed.

(** ** Properties of the logs survive every call *)

Section Framed.
Context (I : iface → Prop) (w : world).
Hypothesis I_framed : framed I.
Hypothesis I_comments : ∀ s, I s → I (snd (get_comments w s)).
Hypothesis I_events : ∀ s, I s → I (snd (get_events w s)).
Hypothesis I_reset_comments : ∀ s, I s → I (set_comments [] s).
Hypothesis I_reset_events : ∀ s, I s → I (set_events EvDict s).

Lemma wp_framed_get_comments s :
  I s → wp (get_comments w) (λ _, I) (λ _, I) s.
Proof. intros. by apply wp_always, I_comments. Qed.

Lemma wp_framed_get_events s :
  I s → wp (get_events w) (λ _, I) (λ _, I) s.
Proof. intros. by apply wp_always, I_events. Qed.

Lemma framed_fetch_all c e s : I s → I (snd (fetch_all w c e s)).
Proof.
  intros HI. apply (wp_always_inv (fetch_all w c e) I).
  assert (∀ s2, I s2 →
            wp (if e then get_events w;; ret tt else modify (set_events EvDict))
               (λ _, I) (λ _, I) s2) as Hev.
  { intros s2 HI2. destruct e.
    - apply wp_bind. eapply wp_mono; [by apply wp_framed_get_events|done..].
    - by apply wp_modify, I_reset_events. }
  unfold fetch_all.
  repeat wp_next; try (by apply (I_framed s)).
  match goal with
  | |- wp _ _ _ ?s1 =>
      assert (I s1) as HI1 by (by apply (I_framed s)); revert HI1;
      generalize s1; intros s1' HI1
  end.
  destruct c.
  - apply wp_bind. eapply wp_mono; [by apply wp_framed_get_comments| |done].
    cbv beta. intros ? s2 HI2. by apply wp_ret, Hev.
  - apply wp_modify, Hev. by apply I_reset_comments.
Qed.

Lemma framed_classify s : I s → I (snd (classify w s)).
Proof. apply I_framed. by rewrite classify_logs. Qed.

Lemma framed_get_telemetry c e s : I s → I (snd (get_telemetry w c e s)).
Proof.
  intros HI. apply (wp_always_inv (get_telemetry w c e) I).
  unfold get_telemetry. do 6 wp_next.
  match goal with
  | |- wp _ _ _ ?s1 =>
      assert (I s1) as HI0 by (by apply (I_framed s)); revert HI0;
      generalize s1; intros s0 HI0
  end.
  apply wp_bind, wp_try_except, wp_bind.
  eapply wp_mono; [by apply wp_always, framed_fetch_all| |].
  - cbv beta. intros ? s1 HI1.
    eapply wp_mono; [by apply wp_always, framed_classify| |].
    + intros ? s2 HI2. by apply wp_gets.
    + intros ex s2 HI2. unfold except_Exception.
      apply wp_modify, wp_gets. by apply (I_framed s2).
  - intros ex s1 HI1. unfold except_Exception.
    apply wp_modify, wp_gets. by apply (I_framed s1).
Qed.

Lemma framed_get_status s : I s → I (snd (get_status w s)).
Proof.
  intros HI. apply (wp_always_inv (get_status w) I).
  unfold get_status. do 6 wp_next.
  match goal with
  | |- wp _ _ _ ?s1 =>
      assert (I s1) as HI0 by (by apply (I_framed s)); revert HI0;
      generalize s1; intros s0 HI0
  end.
  apply wp_try_except.
  assert (∀ ex s1, I s1 →
     match (if bool_decide (exc_type ex = ConnectTimeout)
            then Some (ret Status.WT_NOT_RUNNING)
            else Some (ret (status_of_exception ex))) with
     | Some h => wp h (λ _ : Z, I) (λ _, I) s1
     | None => I s1
     end) as Hh.
  { intros ex s1 HI1. by destruct (bool_decide _). }
  apply (wp_mono _ (λ _, I) (λ _, I)); [|done|by intros; apply Hh]. clear Hh.
  do 3 wp_next; [|done].
  match goal with
  | |- wp (if negb ?b then _ else _) _ _ _ => destruct b; cbn [negb]
  end; [|by apply wp_ret].
  repeat wp_next; try (by apply (I_framed s0)).
  match goal with
  | |- wp _ _ _ ?s1 =>
      assert (I s1) as HI1 by (by apply (I_framed s0)); revert HI1;
      generalize s1; intros s1' HI1
  end.
  eapply wp_mono; [by apply wp_framed_get_events| |done].
  cbv beta. intros ? s2 HI2.
  apply wp_bind, wp_both_valid.
  assert (∀ ok : bool,
    wp (if ok then
          try_except
            (x <- getitem indicators "type";;
             setitem_basic "airframe" x;;
             modify (set_connected true);;
             ret Status.IN_FLIGHT)
            (except [KeyError; AttributeError] (ret Status.IN_MENU))
        else ret Status.NO_MISSION)
       (λ _, I) (λ _, I) s2) as Hk.
  { intros [|]; [|by apply wp_ret].
    apply wp_try_except. unfold except.
    repeat wp_next; try done; by apply (I_framed s2). }
  destruct (indicators s2 !! "valid") as [v1|]; [|done].
  destruct (truthy v1); [|by apply (Hk false)].
  destruct (state s2 !! "valid") as [v2|]; [by apply (Hk (truthy v2))|done].
Qed.

Theorem framed_run_call c s : I s → I (run_call c w s).
Proof.
  destruct c; simpl; auto using framed_get_telemetry, framed_get_status.
Qed.
End Framed.

(** ** The invariants of the two logs *)

Lemma fold_max_ge (l : list Z) (a : Z) : a ≤ fold_left Z.max l a.
Proof.
  revert a. induction l as [|x l IH]; intros a; simpl; [lia|].
  etrans; [|apply IH]. lia.
Qed.

Lemma fold_max_ge_elem (l : list Z) (a x : Z) :
  x ∈ l → x ≤ fold_left Z.max l a.
Proof.
  revert a. induction l as [|y l IH]; intros a Hx; [by apply elem_of_nil in Hx|].
  apply elem_of_cons in Hx as [->|Hx]; simpl.
  - etrans; [|apply fold_max_ge]. lia.
  - by apply IH.
Qed.

Lemma ids_of_app (l1 l2 : list entry) :
  ids_of (l1 ++ l2) =
    match ids_of l1 with
    | Ok a =>
        match ids_of l2 with
        | Ok b => Ok (a ++ b)
        | Raise e => Raise e
        end
    | Raise e => Raise e
    end.
Proof.
  induction l1 as [|c l1 IH]; simpl.
  - by destruct (ids_of l2).
  - destruct (entry_id c); [|done]. rewrite IH.
    destruct (ids_of l1); [|done]. by destruct (ids_of l2).
Qed.

Lemma ids_of_from (last : Z) (l : list entry) (ids : list Z) :
  ids_from last l → ids_of l = Ok ids → Forall (λ i, last ≤ i) ids.
Proof.
  unfold ids_from. revert ids.
  induction l as [|c l IH]; intros ids Hl Hids; simpl in Hids.
  - by inversion Hids.
  - apply Forall_cons in Hl as [Hc Hl].
    destruct (entry_id c) as [i|] eqn:Hi; [|done].
    destruct (ids_of l) as [ids'|]; [|done].
    inversion Hids; subst. constructor; eauto.
Qed.

Lemma events_inv_framed : framed events_inv.
Proof.
  intros s s' Hl. unfold logs in Hl. unfold events_inv.
  injection Hl as -> _ _ ->. done.
Qed.

Lemma comments_inv_framed : framed comments_inv.
Proof.
  intros s s' Hl. unfold logs in Hl. unfold comments_inv.
  injection Hl as _ -> -> _. done.
Qed.

(** [get_events] establishes its invariant whatever it starts from. *)
Lemma get_events_inv (w : world) (s : iface) :
  events_inv (snd (get_events w s)).
Proof.
  rewrite get_events_eq. cbn zeta.
  destruct (events (events_fetched w s)) as [l|] eqn:Hev.
  - destruct (last l) as [e|] eqn:Hl.
    + destruct (entry_id e) as [i|] eqn:Hi; unfold events_inv; simpl_iface;
        rewrite Hev, Hl, Hi; done.
    + unfold events_inv. simpl_iface. by rewrite Hev, Hl.
  - unfold events_inv. simpl_iface. by rewrite Hev.
Qed.

Lemma get_comments_inv (w : world) (s : iface) :
  comments_inv s → comments_inv (snd (get_comments w s)).
Proof.
  intros HI. rewrite get_comments_eq.
  destruct (get_gamechat w (last_comment_ID s)) as [l|e]; [|done].
  destruct (comments s ++ l)%list as [|c cs]; [done|].
  destruct (ids_of (c :: cs)) as [ids|e] eqn:Hids.
  - destruct ids as [|i ids].
    + simpl in Hids. destruct (entry_id c); [|done]. by destruct (ids_of cs).
    + cbn [py_max]. unfold comments_inv. simpl_iface. by rewrite Hids.
  - unfold comments_inv. simpl_iface. by rewrite Hids.
Qed.

Lemma logs_inv_framed : framed logs_inv.
Proof.
  intros s1 s2 Hl [??]. split;
    [by eapply events_inv_framed|by eapply comments_inv_framed].
Qed.

Lemma logs_inv_get_comments (w : world) (s : iface) :
  logs_inv s → logs_inv (snd (get_comments w s)).
Proof.
  intros [He Hc]. split; [|by apply get_comments_inv].
  destruct (get_comments_events_untouched w s) as [H1 H2].
  unfold events_inv in *. by rewrite H1, H2.
Qed.

Lemma logs_inv_get_events (w : world) (s : iface) :
  logs_inv s → logs_inv (snd (get_events w s)).
Proof.
  intros [He Hc]. split; [by apply get_events_inv|].
  destruct (get_events_comments_untouched w s) as [H1 H2].
  unfold comments_inv in *. by rewrite H1, H2.
Qed.

Lemma logs_inv_run_call (c : call) (w : world) (s : iface) :
  logs_inv s → logs_inv (run_call c w s).
Proof.
  apply framed_run_call.
  - apply logs_inv_framed.
  - apply logs_inv_get_comments.
  - apply logs_inv_get_events.
  - by intros s1 [He Hc].
  - by intros s1 [He Hc].
Qed.

Lemma reachable_logs_inv (s : iface) : reachable s → logs_inv s.
Proof.
  induction 1 as [|c w s _ IH]; [by split|by apply logs_inv_run_call].
Qed.

(** ** A failed event request changes nothing *)

Lemma set_last_event_ID_same (s : iface) :
  set_last_event_ID (last_event_ID s) s = s.
Proof. by destruct s. Qed.

Lemma get_events_failed_fetch (w : world) (s : iface) (e : exc) :
  events_inv s →
  get_hudmsg w (last_event_ID s) = Raise e →
  snd (get_events w s) = s.
Proof.
  intros HI Hf. rewrite get_events_eq. unfold events_fetched. rewrite Hf.
  cbn zeta. unfold events_inv in HI.
  destruct (events s) as [l|]; [|done].
  destruct (last l) as [x|]; [|done].
  destruct (entry_id x) as [i|]; [|done].
  simpl. rewrite <- HI. apply set_last_event_ID_same.
Qed.

(** C9. On an instance reached from a fresh one through the methods, a call
    of [get_events] whose request fails leaves [events] and
    [last_event_ID] as they were, whether the call then returns or raises. *)
Theorem get_events_failed_fetch_unchanged (w : world) (s : iface) (e : exc) :
  reachable s →
  get_hudmsg w (last_event_ID s) = Raise e →
  events (snd (get_events w s)) = events s ∧
  last_event_ID (snd (get_events w s)) = last_event_ID s.
Proof.
  intros Hr Hf.
  rewrite (get_events_failed_fetch w s e); [done| |done].
  by apply reachable_logs_inv.
Qed.

(** After an answered request the list has grown and the watermark moved. *)
Example get_events_failed_fetch_setup :
  events (run_call CallGetEvents (hud_world 7) init) = EvList [Entry (Some 7) ∅] ∧
  last_event_ID (run_call CallGetEvents (hud_world 7) init) = 7.
Proof. split; reflexivity. Qed.

Lemma get_events_failed_fetch_unchanged_witness :
  let s := run_call CallGetEvents (hud_world 7) init in
  reachable s ∧
  get_hudmsg refused_world (last_event_ID s) = Raise connection_refused ∧
  events (snd (get_events refused_world s)) = events s ∧
  last_event_ID (snd (get_events refused_world s)) = last_event_ID s.
Proof.
  cbv zeta.
  assert (reachable (run_call CallGetEvents (hud_world 7) init)) as Hr
    by (apply reachable_call, reachable_init).
  split; [exact Hr|]. split; [reflexivity|].
  exact (get_events_failed_fetch_unchanged refused_world _ connection_refused
           Hr eq_refl).
Defined.

(** ** Watermarks *)

Lemma get_comments_mono (w : world) (s : iface) :
  comments_inv s →
  (∀ l, get_gamechat w (last_comment_ID s) = Ok l → ids_from (last_comment_ID s) l) →
  last_comment_ID s ≤ last_comment_ID (snd (get_comments w s)).
Proof.
  intros HI Hh. rewrite get_comments_eq.
  destruct (get_gamechat w (last_comment_ID s)) as [l|e]; [|done].
  specialize (Hh l eq_refl).
  destruct (comments s ++ l) as [|c cs] eqn:Happ; [done|].
  destruct (ids_of (c :: cs)) as [ids|e] eqn:Hids; [|done].
  destruct ids as [|i ids]; [done|]. cbn [py_max]. simpl_iface.
  rewrite <- Happ, ids_of_app in Hids. unfold comments_inv in HI.
  destruct (ids_of (comments s)) as [ia|] eqn:Ha; [|done].
  destruct (ids_of l) as [ib|] eqn:Hb; [|done].
  injection Hids as Hids.
  pose proof (ids_of_from _ _ _ Hh Hb) as Hfrom.
  destruct ia as [|a ia]; simpl in Hids.
  - subst ib. apply Forall_cons in Hfrom as [Hi _].
    etrans; [exact Hi|apply fold_max_ge].
  - injection Hids as -> <-. rewrite HI, fold_left_app. apply fold_max_ge.
Qed.

Lemma get_events_mono (w : world) (s : iface) :
  events_inv s →
  (∀ l, get_hudmsg w (last_event_ID s) = Ok l → ids_from (last_event_ID s) l) →
  last_event_ID s ≤ last_event_ID (snd (get_events w s)).
Proof.
  intros HI Hh. rewrite get_events_eq. unfold events_fetched. cbn zeta.
  unfold events_inv in HI.
  destruct (get_hudmsg w (last_event_ID s)) as [l|e];
    destruct (events s) as [old|] eqn:Hev; simpl_iface; rewrite ?Hev;
    try done.
  - specialize (Hh l eq_refl). rewrite last_app.
    destruct (last l) as [x|] eqn:Hl.
    + destruct (entry_id x) as [i|] eqn:Hi; [|done]. simpl.
      apply last_Some_elem_of in Hl.
      unfold ids_from in Hh. rewrite Forall_forall in Hh. by apply (Hh x).
    + destruct (last old) as [x|]; [|done].
      destruct (entry_id x) as [i|]; [|done]. simpl. lia.
  - destruct (last old) as [x|]; [|done].
    destruct (entry_id x) as [i|]; [|done]. simpl. lia.
Qed.

(** Against a server that honours the watermarks, no call lowers either
    of them, on any instance that satisfies the invariants of the logs. *)
Lemma watermarks_mono_inv (c : call) (w : world) (s : iface) :
  logs_inv s → honest w →
  last_comment_ID s ≤ last_comment_ID (run_call c w s) ∧
  last_event_ID s ≤ last_event_ID (run_call c w s).
Proof.
  intros HI [Hhc Hhe].
  pose (I := λ s', logs_inv s' ∧
                   last_comment_ID s ≤ last_comment_ID s' ∧
                   last_event_ID s ≤ last_event_ID s').
  assert (I (run_call c w s)) as (_ & ? & ?); [|done].
  apply framed_run_call.
  - intros s1 s2 Hl (Hinv & H1 & H2). split; [by eapply logs_inv_framed|].
    unfold logs in Hl. injection Hl as <- <- _ _. done.
  - intros s1 (Hinv & H1 & H2). split; [by apply logs_inv_get_comments|].
    destruct (get_comments_events_untouched w s1) as [_ ->]. split; [|done].
    etrans; [exact H1|]. apply get_comments_mono; [apply Hinv|].
    intros l. apply Hhc.
  - intros s1 (Hinv & H1 & H2). split; [by apply logs_inv_get_events|].
    destruct (get_events_comments_untouched w s1) as [_ ->]. split; [done|].
    etrans; [exact H2|]. apply get_events_mono; [apply Hinv|].
    intros l. apply Hhe.
  - intros s1 ([He Hc] & H1 & H2). done.
  - intros s1 ([He Hc] & H1 & H2). done.
  - unfold I. repeat split; [apply HI..|lia|lia].
Qed.

(** C5, amended. On an instance reached from a fresh one through any
    sequence of calls, a further call (a direct [get_comments] or
    [get_events], or a poll that makes them) never lowers
    [last_comment_ID] or [last_event_ID], provided the answers to its log
    requests carry no id below the watermark sent with the request. *)
Theorem watermarks_never_decrease (c : call) (w : world) (s : iface) :
  reachable s → honest w →
  last_comment_ID s ≤ last_comment_ID (run_call c w s) ∧
  last_event_ID s ≤ last_event_ID (run_call c w s).
Proof.
  intros Hr Hw. apply watermarks_mono_inv; [|done].
  by apply reachable_logs_inv.
Qed.

Lemma honest_world_honest : honest honest_world.
Proof.
  split; intros last l [= <-]; repeat constructor; simpl;
    intros i [= <-]; lia.
Qed.

Lemma watermarks_never_decrease_witness :
  let s := run_call CallGetComments honest_world init in
  reachable s ∧ honest honest_world ∧
  last_comment_ID s ≤ last_comment_ID (run_call CallGetComments honest_world s) ∧
  last_event_ID s ≤ last_event_ID (run_call CallGetComments honest_world s).
Proof.
  cbv zeta.
  assert (reachable (run_call CallGetComments honest_world init)) as Hr
    by (apply reachable_call, reachable_init).
  split; [exact Hr|]. split; [exact honest_world_honest|].
  exact (watermarks_never_decrease CallGetComments honest_world _ Hr
           honest_world_honest).
Defined.

(** C5 as stated fails: the event watermark follows the last entry of the
    list, so a second answer with a smaller id lowers it. *)
Lemma event_watermark_can_decrease :
  let s1 := run_call CallGetEvents (hud_world 5) init in
  let s2 := run_call CallGetEvents (hud_world 3) s1 in
  last_event_ID s1 = 5 ∧ last_event_ID s2 = 3 ∧
  ¬ (last_event_ID s1 ≤ last_event_ID s2).
Proof. cbv zeta. split; [reflexivity|]. split; [reflexivity|]. vm_compute. by intros H. Qed.

(** The comment watermark is no safer once a poll without comments has
    emptied the list. *)
Example comment_watermark_can_decrease :
  let w5 := World (Ok tt) (Ok tt) (Ok true) (Ok VNone) (Ok VNone)
              (Ok menu_indicators) (Ok valid_state) (one_event 5) no_log in
  let w3 := World (Ok tt) (Ok tt) (Ok true) (Ok VNone) (Ok VNone)
              (Ok menu_indicators) (Ok valid_state) (one_event 3) no_log in
  let s1 := run_call CallGetComments w5 init in
  let s2 := run_call (CallGetTelemetry false false) w5 s1 in
  let s3 := run_call CallGetComments w3 s2 in
  last_comment_ID s1 = 5 ∧ last_comment_ID s3 = 3.
Proof. split; reflexivity. Qed.

(** ** The dict stored in [events] *)

(** What [get_comments] does only depends on the attributes of its log. *)
Lemma get_comments_frame (w : world) (s s' : iface) :
  comments s = comments s' → last_comment_ID s = last_comment_ID s' →
  fst (get_comments w s) = fst (get_comments w s').
Proof.
  intros Hc Hl. rewrite !get_comments_eq, <- Hc, <- Hl.
  destruct (get_gamechat w (last_comment_ID s)) as [l|e]; [|done].
  destruct (comments s ++ l) as [|c cs]; [done|].
  destruct (ids_of (c :: cs)) as [ids|e]; [|done].
  by destruct (py_max ids).
Qed.

(** The requests of a poll that does not ask for events end by storing the
    dict, when none of them raises. *)
Lemma fetch_all_events_dict (w : world) (c : bool) (s : iface) :
  map_download_files w = Ok tt →
  map_parse_meta w = Ok tt →
  (∃ ind, get_indicators w = Ok ind) →
  (∃ st, get_state w = Ok st) →
  (c = true → ∃ l, fst (get_comments w s) = Ok l) →
  wp (fetch_all w c false) (λ _ s', events s' = EvDict) (λ _ _, False) s.
Proof.
  intros H1 H2 [ind Hind] [st Hst] Hc.
  unfold fetch_all. rewrite H1, H2, Hind, Hst.
  repeat wp_next; try done.
  destruct c.
  - destruct (Hc eq_refl) as [l Hl].
    apply wp_bind, wp_call.
    rewrite (get_comments_frame w _ s) by done.
    rewrite Hl. by apply wp_ret, wp_modify.
  - by apply wp_modify, wp_modify.
Qed.

(** C10, amended. A call [get_telemetry(comments, events=False)] whose
    requests (map files, indicators, state and, when asked for, comments)
    raise nothing leaves the empty dict in [events]; on an instance in that
    condition every direct call of [get_events], whether its request fails or
    not, raises [KeyError(-1)] to its caller and changes nothing. *)
Theorem events_dict_after_poll (w : world) (c : bool) (s : iface) :
  map_download_files w = Ok tt →
  map_parse_meta w = Ok tt →
  (∃ ind, get_indicators w = Ok ind) →
  (∃ st, get_state w = Ok st) →
  (c = true → ∃ l, fst (get_comments w s) = Ok l) →
  events (snd (get_telemetry w c false s)) = EvDict ∧
  ∀ w', get_events w' (snd (get_telemetry w c false s))
        = (Raise (Exc KeyError "-1"), snd (get_telemetry w c false s)).
Proof.
  intros H1 H2 Hind Hst Hc.
  assert (events (snd (get_telemetry w c false s)) = EvDict) as Hev.
  { apply (wp_always_inv (get_telemetry w c false) (λ s', events s' = EvDict)).
    unfold get_telemetry. do 6 wp_next.
    apply wp_bind, wp_try_except, wp_bind.
    eapply wp_mono.
    - apply fetch_all_events_dict; try done.
      intros Hct. destruct (Hc Hct) as [l Hl]. exists l.
      by rewrite <- Hl; apply get_comments_frame.
    - cbv beta. intros ? s1 Hs1. apply wp_call.
      pose proof (classify_logs w s1) as Hlogs.
      assert (events (snd (classify w s1)) = EvDict) as Hs2.
      { unfold logs in Hlogs. injection Hlogs as _ _ _ ->. done. }
      destruct (fst (classify w s1)); unfold except_Exception; by cbv beta.
    - done. }
  split; [done|]. intros w'. by apply get_events_dict.
Qed.

Lemma events_dict_after_poll_witness :
  let w := quiet_world menu_indicators valid_state in
  events (snd (get_telemetry w false false init)) = EvDict ∧
  ∀ w', get_events w' (snd (get_telemetry w false false init))
        = (Raise (Exc KeyError "-1"), snd (get_telemetry w false false init)).
Proof.
  cbv zeta.
  apply (events_dict_after_poll (quiet_world menu_indicators valid_state) false init).
  - reflexivity.
  - reflexivity.
  - by exists menu_indicators.
  - by exists valid_state.
  - intros H. discriminate H.
Defined.

(** C10 as stated fails: a poll cut short by a refused connection returns
    like any other, and [events] is still the list it was. *)
Lemma events_still_list_after_refused_poll :
  fst (get_telemetry refused_world false false init) = Ok false ∧
  events (snd (get_telemetry refused_world false false init)) = EvList [] ∧
  events (snd (get_telemetry refused_world false false init)) ≠ EvDict.
Proof. split; [reflexivity|]. split; [reflexivity|]. vm_compute. by intros H. Qed.

(** ** What a poll that ends connected has stored *)

(** The two log requests of a poll leave the telemetry attributes alone. *)
Lemma wp_log_requests (w : world) (c e : bool)
    (Qn : unit → iface → Prop) (Qe : exc → iface → Prop) (s : iface) :
  (∀ s', tele s' = tele s → Qn tt s') →
  (∀ ex s', tele s' = tele s → Qe ex s') →
  wp (if c then get_comments w ;; ret tt else modify (set_comments []))
     (λ _, wp (if e then get_events w ;; ret tt else modify (set_events EvDict))
              Qn Qe)
     Qe s.
Proof.
  intros Hn He.
  assert (∀ s1, tele s1 = tele s →
            wp (if e then get_events w;; ret tt else modify (set_events EvDict))
               Qn Qe s1) as Hev.
  { intros s1 H1. destruct e; [|by apply wp_modify, Hn].
    apply wp_bind, wp_call. pose proof (get_events_tele w s1) as Ht.
    destruct (get_events w s1) as [[a|ex] s2]; simpl in *;
      [apply wp_ret, Hn|apply He]; congruence. }
  destruct c; [|by apply wp_modify, Hev].
  apply wp_bind, wp_call. pose proof (get_comments_tele w s) as Ht.
  destruct (get_comments w s) as [[a|ex] s2]; simpl in *;
    [apply wp_ret, Hev|apply He]; congruence.
Qed.

Lemma fetch_all_spec (w : world) (c e : bool) (s : iface) :
  wp (fetch_all w c e)
     (λ _ s', get_indicators w = Ok (indicators s') ∧
              get_state w = Ok (state s') ∧
              connected s' = connected s ∧
              full_telemetry s' = full_telemetry s ∧
              basic_telemetry s' = basic_telemetry s)
     (λ _ s', connected s' = connected s ∧
              full_telemetry s' = full_telemetry s ∧
              basic_telemetry s' = basic_telemetry s)
     s.
Proof.
  unfold fetch_all. repeat wp_next; try done.
  apply wp_log_requests; intros;
    match goal with H : tele _ = tele _ |- _ =>
      unfold tele in H; simpl_iface; injection H; intros
    end;
    repeat split; congruence.
Qed.

(** A poll returns the [connected] flag and never raises; when the flag is
    set, the snapshots it fetched are in [indicators] (with the signs
    corrected and [alt_m] added) and [state], and [full_telemetry] is their
    merge with the player's position on top. *)
Lemma get_telemetry_spec (w : world) (c e : bool) (s : iface) :
  wp (get_telemetry w c e)
     (λ b s',
        b = connected s' ∧
        (connected s' = true →
         status s' = Status.IN_FLIGHT ∧
         get_state w = Ok (state s') ∧
         ∃ ind ind1 ind2 alt lat lon,
           get_indicators w = Ok ind ∧
           sign_fixed "aviahorizon_pitch" ind ind1 ∧
           sign_fixed "aviahorizon_roll" ind1 ind2 ∧
           indicators s' = <["alt_m" := alt]> ind2 ∧
           map_player_lat w = Ok lat ∧ map_player_lon w = Ok lon ∧
           full_telemetry s' =
             <["lon" := lon]> (<["lat" := lat]> (state s' ∪ indicators s'))))
     (λ _ _, False)
     s.
Proof.
  match goal with |- wp _ ?Q _ _ => set (Qn := Q) end.
  unfold get_telemetry. do 6 wp_next.
  apply wp_bind, wp_try_except, wp_bind.
  assert (∀ s', connected s' = false →
            wp (gets connected) Qn (λ _ _, False) s') as Hout.
  { intros s' Hs'. apply wp_gets. split; [done|]. intros Ht.
    rewrite Hs' in Ht. discriminate Ht. }
  eapply wp_mono; [apply fetch_all_spec| |]; simpl_iface; cbv beta.
  - intros _ s1 (Hind & Hst & Hc1 & Hf1 & _).
    unfold classify. apply wp_bind, wp_both_valid.
    unfold except_Exception.
    destruct (indicators s1 !! "valid") as [v1|];
      [|by apply wp_modify, Hout].
    assert (wp (modify (set_status Status.NO_MISSION))
              (λ _ s2, wp (gets connected) Qn (λ _ _, False) s2)
              (λ ex s2, wp (modify (set_status (status_of_exception ex)) ;;
                            gets connected) Qn (λ _ _, False) s2) s1) as Hno
      by (by apply wp_modify, Hout).
    destruct (truthy v1); [|exact Hno].
    destruct (state s1 !! "valid") as [v2|]; [|by apply wp_modify, Hout].
    destruct (truthy v2); [|exact Hno]. clear Hno.
    apply wp_try_except.
    eapply wp_mono; [by apply normalize_spec| |]; cbv beta.
    + intros _ s2 (Hc2 & Hs2 & _ & Hst2 & Hrest).
      destruct Hrest as (ind1 & ind2 & alt & lat & lon & Hp & Hr & _ & Hi2 & Hlat & Hlon & Hfull).
      apply wp_gets. split; [done|]. intros _. split; [done|].
      split; [by rewrite Hst2|].
      exists (indicators s1), ind1, ind2, alt, lat, lon.
      repeat split; try done.
      by rewrite Hfull, Hf1, (right_id_L ∅ (∪)), Hst2.
    + intros ex s2 (Hc2 & _). unfold except.
      destruct (class_in _ _); by apply wp_modify, Hout.
  - intros ex s1 (Hc1 & _). unfold except_Exception. by apply wp_modify, Hout.
Qed.

Lemma get_telemetry_returns (w : world) (c e : bool) (s : iface) :
  fst (get_telemetry w c e s) = Ok (connected (snd (get_telemetry w c e s))).
Proof.
  pose proof (wp_run _ _ _ _ (get_telemetry_spec w c e s)) as H.
  destruct (fst (get_telemetry w c e s)) as [b|ex]; [|done].
  by destruct H as [-> _].
Qed.

Example merge_precedence :
  combine_dicts
    (PyDict (combine_dicts (PyDict ∅)
               (PyDict (<["a" := VInt 1]> (<["b" := VInt 2]> ∅)))))
    (PyDict (<["b" := VInt 3]> (<["c" := VInt 4]> ∅)))
  = <["a" := VInt 1]> (<["b" := VInt 3]> (<["c" := VInt 4]> ∅)).
Proof. vm_compute. reflexivity. Qed.

(** C8. The two [combine_dicts] calls of a poll build the merge of the
    indicators and the state in which the state wins every shared key; a
    poll that ends connected has stored that merge of its corrected
    indicators and its state in [full_telemetry], with the player's
    [lat] and [lon] written on top. *)
Theorem full_telemetry_state_wins :
  (∀ ind st : gmap string value,
     let merged :=
       combine_dicts (PyDict (combine_dicts (PyDict ∅) (PyDict ind))) (PyDict st) in
     merged = st ∪ ind ∧
     (∀ k v, st !! k = Some v → merged !! k = Some v) ∧
     (∀ k, st !! k = None → merged !! k = ind !! k)) ∧
  (∀ (w : world) (c e : bool) (s : iface),
     fst (get_telemetry w c e s) = Ok true →
     let s' := snd (get_telemetry w c e s) in
     get_state w = Ok (state s') ∧
     ∃ ind ind1 ind2 alt lat lon,
       get_indicators w = Ok ind ∧
       sign_fixed "aviahorizon_pitch" ind ind1 ∧
       sign_fixed "aviahorizon_roll" ind1 ind2 ∧
       indicators s' = <["alt_m" := alt]> ind2 ∧
       map_player_lat w = Ok lat ∧ map_player_lon w = Ok lon ∧
       full_telemetry s' =
         <["lon" := lon]> (<["lat" := lat]>
           (combine_dicts
              (PyDict (combine_dicts (PyDict ∅) (PyDict (indicators s'))))
              (PyDict (state s'))))).
Proof.
  assert (∀ ind st : gmap string value,
            combine_dicts (PyDict (combine_dicts (PyDict ∅) (PyDict ind))) (PyDict st)
            = st ∪ ind) as Hmerge.
  { intros ind st. by rewrite !combine_dicts_union, (right_id_L ∅ (∪)). }
  split.
  - intros ind st. cbv zeta. rewrite Hmerge. split; [done|]. split.
    + intros k v Hk. by apply lookup_union_Some_l.
    + intros k Hk. by apply lookup_union_r.
  - intros w c e s Hret. cbv zeta.
    pose proof (wp_run _ _ _ _ (get_telemetry_spec w c e s)) as H.
    rewrite Hret in H. destruct H as [Hc H].
    destruct (H (eq_sym Hc)) as (_ & Hst & ind & ind1 & ind2 & alt & lat & lon & Hrest).
    split; [done|]. exists ind, ind1, ind2, alt, lat, lon.
    rewrite Hmerge. tauto.
Qed.

Lemma full_telemetry_state_wins_witness :
  let w := scenario1_world (VFloat 0) (VFloat 0) in
  fst (get_telemetry w false false init) = Ok true ∧
  full_telemetry (snd (get_telemetry w false false init)) !! "valid" = Some (VBool true) ∧
  get_state w = Ok (state (snd (get_telemetry w false false init))).
Proof.
  cbv zeta. split; [reflexivity|]. split; [reflexivity|].
  exact (proj1 (proj2 full_telemetry_state_wins
                  (scenario1_world (VFloat 0) (VFloat 0)) false false init eq_refl)).
Defined.

(** ** Transport failures *)

(** A request of the poll that raises ends it with the status the message
    of the exception selects; its class is not looked at. *)
Lemma get_telemetry_indicators_raise (w : world) (c e : bool) (s : iface) (ex : exc) :
  map_download_files w = Ok tt →
  map_parse_meta w = Ok tt →
  get_indicators w = Raise ex →
  fst (get_telemetry w c e s) = Ok false ∧
  status (snd (get_telemetry w c e s)) = status_of_exception ex.
Proof.
  intros H1 H2 H3.
  unfold get_telemetry, fetch_all, try_except, except_Exception, bind, lift,
    modify, gets.
  rewrite H1, H2, H3. done.
Qed.

(** [get_status] has a clause for the class. *)
Lemma get_status_connect_timeout (w : world) (s : iface) (ex : exc) :
  map_check_battle w = Ok true →
  get_indicators w = Raise ex →
  exc_type ex = ConnectTimeout →
  fst (get_status w s) = Ok Status.WT_NOT_RUNNING.
Proof.
  intros H1 H2 H3.
  unfold get_status, try_except, bind, lift, modify, gets, ret.
  rewrite H1, H2. simpl. by rewrite H3.
Qed.

Lemma get_status_returns (w : world) (s : iface) :
  ∃ z, fst (get_status w s) = Ok z.
Proof.
  unfold get_status.
  assert (∀ (m : M Z) s0,
            ∃ z, fst (try_except m
                        (λ e, if bool_decide (exc_type e = ConnectTimeout)
                              then Some (ret Status.WT_NOT_RUNNING)
                              else Some (ret (status_of_exception e))) s0) = Ok z)
    as Htry.
  { intros m s0. unfold try_except. destruct (m s0) as [[z|ex] s1]; [by eexists|].
    destruct (bool_decide _); by eexists. }
  unfold bind at 1 2 3. unfold modify at 1 2 3. apply Htry.
Qed.

Example connect_timeout_lacks_needle :
  contains NEEDLE (exc_str connect_timeout) = false ∧
  contains NEEDLE (exc_str connection_refused) = true.
Proof. split; reflexivity. Qed.

(** C3. A connect timeout on the indicators request: [get_status] answers
    [WT_NOT_RUNNING], [get_telemetry] records [OTHER_ERROR]; neither
    raises. *)
Theorem connect_timeout_poll (c e : bool) (s : iface) :
  fst (get_telemetry timeout_world c e s) = Ok false ∧
  status (snd (get_telemetry timeout_world c e s)) = Status.OTHER_ERROR ∧
  fst (get_status timeout_world s) = Ok Status.WT_NOT_RUNNING.
Proof.
  destruct (get_telemetry_indicators_raise timeout_world c e s connect_timeout)
    as [Hr Hs]; [done..|].
  split; [done|]. split; [by rewrite Hs|].
  by apply (get_status_connect_timeout _ _ connect_timeout).
Qed.

(** Scenario 4: a refused connection is recognised by its message. *)
Example refused_poll :
  status (snd (get_telemetry refused_world false false init)) = Status.WT_NOT_RUNNING.
Proof. reflexivity. Qed.

(** ** Failures of the log requests inside a poll *)

(** C4. The same in-flight snapshots, polled with comments: when the
    chat request answers, the poll ends [IN_FLIGHT]; when it fails, the
    exception leaves [get_comments], ends the poll before any
    classification and is recorded as [OTHER_ERROR]. *)
Theorem comment_failure_aborts_poll :
  let good := get_telemetry (scenario1_world (VFloat 0) (VFloat 0)) true false init in
  let bad := get_telemetry bad_chat_world true false init in
  status (snd good) = Status.IN_FLIGHT ∧ fst good = Ok true ∧
  status (snd bad) = Status.OTHER_ERROR ∧ fst bad = Ok false ∧
  full_telemetry (snd bad) = ∅ ∧ basic_telemetry (snd bad) = ∅.
Proof. cbv zeta. repeat split; vm_compute; reflexivity. Qed.

(** [get_comments] itself lets the exception through. *)
Example get_comments_raises :
  fst (get_comments bad_chat_world init) = Raise bad_chat.
Proof. reflexivity. Qed.

(** ** Polls after the dict has been stored *)

Example after_default_poll_events :
  events after_default_poll = EvDict ∧ reachable after_default_poll.
Proof. split; [reflexivity|apply reachable_call, reachable_init]. Qed.

(** C7. After a default poll, a poll with [events=True] whose requests all
    answer and whose indicators report [valid = false] records
    [OTHER_ERROR], not [NO_MISSION]: [get_events] raises [KeyError(-1)] on
    the dict. *)
Theorem no_mission_poll_after_default_poll :
  let w := quiet_world invalid_indicators valid_state in
  let r := get_telemetry w false true after_default_poll in
  get_indicators w = Ok invalid_indicators ∧ get_state w = Ok valid_state ∧
  get_hudmsg w (last_event_ID after_default_poll) = Ok [] ∧
  fst r = Ok false ∧
  status (snd r) = Status.OTHER_ERROR ∧
  status (snd r) ≠ Status.NO_MISSION.
Proof. cbv zeta. repeat split; try (vm_compute; reflexivity). vm_compute. by intros H. Qed.

(** C6. After a default poll, a poll with [events=True] whose requests all
    answer, with both snapshots valid and no [type] in the indicators,
    records [OTHER_ERROR], not [IN_MENU]. *)
Theorem menu_poll_after_default_poll :
  let w := quiet_world menu_indicators valid_state in
  let r := get_telemetry w false true after_default_poll in
  get_indicators w = Ok menu_indicators ∧ get_state w = Ok valid_state ∧
  menu_indicators !! "type" = None ∧
  get_hudmsg w (last_event_ID after_default_poll) = Ok [] ∧
  fst r = Ok false ∧
  status (snd r) = Status.OTHER_ERROR ∧
  status (snd r) ≠ Status.IN_MENU.
Proof. cbv zeta. repeat split; try (vm_compute; reflexivity). vm_compute. by intros H. Qed.

(** ** Classification when the requests of the poll return *)

(** The instance [get_telemetry] hands to its [try] block. *)
Lemma get_telemetry_after_fetch (w : world) (c e : bool) (s s1 : iface) :
  fetch_all w c e (set_basic_telemetry ∅ (set_full_telemetry ∅ (set_connected false s)))
    = (Ok tt, s1) →
  get_telemetry w c e s =
    match classify w s1 with
    | (Ok _, s2) => (Ok (connected s2), s2)
    | (Raise ex, s2) =>
        (Ok (connected s2), set_status (status_of_exception ex) s2)
    end ∧
  connected s1 = false ∧ full_telemetry s1 = ∅ ∧ basic_telemetry s1 = ∅.
Proof.
  intros Hf. split.
  - unfold get_telemetry, try_except, except_Exception, bind, modify, gets.
    rewrite Hf. by destruct (classify w s1) as [[[]|ex] s2].
  - pose proof (wp_run _ _ _ _ (fetch_all_spec w c e
      (set_basic_telemetry ∅ (set_full_telemetry ∅ (set_connected false s))))) as H.
    rewrite Hf in H. simpl in H. tauto.
Qed.

Lemma classify_no_mission (w : world) (s : iface) (v1 : value) :
  indicators s !! "valid" = Some v1 →
  truthy v1 = false ∨ (∃ v2, state s !! "valid" = Some v2 ∧ truthy v2 = false) →
  classify w s = (Ok tt, set_status Status.NO_MISSION s).
Proof.
  intros H1 H2.
  unfold classify, both_valid, getitem, subscript, bind, modify, ret.
  rewrite H1. destruct (truthy v1); [|done].
  destruct H2 as [H2|(v2 & H2 & H3)]; [done|]. by rewrite H2, H3.
Qed.

(** A poll whose requests return and whose indicators carry a false
    [valid], or whose state does, ends [NO_MISSION], not connected, with
    both telemetry dicts empty. *)
Lemma poll_no_mission (w : world) (c e : bool) (s s1 : iface) (v1 : value) :
  fetch_all w c e (set_basic_telemetry ∅ (set_full_telemetry ∅ (set_connected false s)))
    = (Ok tt, s1) →
  indicators s1 !! "valid" = Some v1 →
  truthy v1 = false ∨ (∃ v2, state s1 !! "valid" = Some v2 ∧ truthy v2 = false) →
  let r := get_telemetry w c e s in
  fst r = Ok false ∧ status (snd r) = Status.NO_MISSION ∧
  connected (snd r) = false ∧
  full_telemetry (snd r) = ∅ ∧ basic_telemetry (snd r) = ∅.
Proof.
  intros Hf H1 H2. cbv zeta.
  destruct (get_telemetry_after_fetch w c e s s1 Hf) as (-> & Hc & Hfull & Hbasic).
  rewrite (classify_no_mission w s1 v1) by done. simpl_iface.
  by rewrite Hc, Hfull, Hbasic.
Qed.

Lemma sign_fixed_other (k k' : string) (ind ind' : gmap string value) :
  k ≠ k' → sign_fixed k ind ind' → ind' !! k' = ind !! k'.
Proof.
  intros Hne. unfold sign_fixed.
  destruct (ind !! k) as [x|].
  - intros (nx & _ & ->). by rewrite lookup_insert_ne.
  - intros ->. by rewrite lookup_insert_ne.
Qed.

(** With both flags set and no [type], the inner [try] stops at
    [find_altitude] with a [KeyError], unless a sign correction met a value
    that has no negative. *)
Lemma classify_in_menu (w : world) (s : iface) (v1 v2 : value) :
  indicators s !! "valid" = Some v1 → truthy v1 = true →
  state s !! "valid" = Some v2 → truthy v2 = true →
  indicators s !! "type" = None →
  (∀ k x, indicators s !! k = Some x → ∃ nx, py_neg x = Ok nx) →
  wp (classify w)
     (λ _ s', status s' = Status.IN_MENU ∧ connected s' = connected s ∧
              full_telemetry s' = full_telemetry s ∧
              basic_telemetry s' = basic_telemetry s)
     (λ _ _, False) s.
Proof.
  intros H1 T1 H2 T2 Hty Hneg.
  unfold classify. apply wp_bind, wp_both_valid. rewrite H1, T1, H2, T2.
  apply wp_try_except. unfold normalize.
  do 2 wp_next.
  { do 2 wp_next.
    - do 2 wp_next. rewrite find_altitude_missing_type; [done|]. simpl_iface.
      match goal with
      | Hp : sign_fixed "aviahorizon_pitch" _ ?i1,
        Hr : sign_fixed "aviahorizon_roll" ?i1 ?i2 |- ?i2 !! "type" = None =>
          rewrite (sign_fixed_other "aviahorizon_roll" "type" i1 i2 ltac:(discriminate) Hr),
            (sign_fixed_other "aviahorizon_pitch" "type" _ i1 ltac:(discriminate) Hp);
          exact Hty
      end.
    - exfalso.
      match goal with
      | Hk : _ !! "aviahorizon_roll" = Some ?x, He : py_neg ?x = Raise _ |- _ =>
          match goal with
          | Hp : sign_fixed "aviahorizon_pitch" _ ?i1 |- _ =>
              rewrite (sign_fixed_other "aviahorizon_pitch" "aviahorizon_roll" _ i1
                         ltac:(discriminate) Hp) in Hk
          end;
          destruct (Hneg _ _ Hk) as [nx Hnx]; congruence
      end. }
  exfalso.
  match goal with
  | Hk : _ !! "aviahorizon_pitch" = Some ?x, He : py_neg ?x = Raise _ |- _ =>
      destruct (Hneg _ _ Hk) as [nx Hnx]; congruence
  end.
Qed.

(** A poll whose requests return, with both [valid] flags set and no
    [type] among the indicators (whose values all have a negative), ends
    [IN_MENU] and not connected. *)
Lemma poll_in_menu (w : world) (c e : bool) (s s1 : iface) (v1 v2 : value) :
  fetch_all w c e (set_basic_telemetry ∅ (set_full_telemetry ∅ (set_connected false s)))
    = (Ok tt, s1) →
  indicators s1 !! "valid" = Some v1 → truthy v1 = true →
  state s1 !! "valid" = Some v2 → truthy v2 = true →
  indicators s1 !! "type" = None →
  (∀ k x, indicators s1 !! k = Some x → ∃ nx, py_neg x = Ok nx) →
  let r := get_telemetry w c e s in
  fst r = Ok false ∧ status (snd r) = Status.IN_MENU ∧ connected (snd r) = false.
Proof.
  intros Hf H1 T1 H2 T2 Hty Hneg. cbv zeta.
  destruct (get_telemetry_after_fetch w c e s s1 Hf) as (-> & Hc & _).
  pose proof (wp_run _ _ _ _ (classify_in_menu w s1 v1 v2 H1 T1 H2 T2 Hty Hneg)) as H.
  destruct (classify w s1) as [[[]|ex] s2]; simpl in *; [|done].
  destruct H as (-> & -> & _). by rewrite Hc.
Qed.

(** The requests of a default poll. *)
Lemma fetch_all_default (w : world) (s : iface) (ind st : gmap string value) :
  map_download_files w = Ok tt →
  map_parse_meta w = Ok tt →
  get_indicators w = Ok ind →
  get_state w = Ok st →
  fetch_all w false false s
  = (Ok tt, set_events EvDict (set_comments [] (set_state st (set_indicators ind s)))).
Proof.
  intros H1 H2 H3 H4. unfold fetch_all, bind, lift, modify.
  by rewrite H1, H2, H3, H4.
Qed.

(** With events requested on a list whose last entry, if any, has an id,
    the requests return as well when the HUD request fails. *)
Lemma fetch_all_events_failed (w : world) (s : iface) (ind st : gmap string value)
    (old : list entry) (ex : exc) :
  map_download_files w = Ok tt →
  map_parse_meta w = Ok tt →
  get_indicators w = Ok ind →
  get_state w = Ok st →
  events s = EvList old →
  get_hudmsg w (last_event_ID s) = Raise ex →
  match last old with Some x => is_Some (entry_id x) | None => True end →
  ∃ s1, fetch_all w false true s = (Ok tt, s1) ∧
        indicators s1 = ind ∧ state s1 = st ∧ events s1 = EvList old.
Proof.
  intros H1 H2 H3 H4 Hev Hf Hl. unfold fetch_all, bind, lift, modify, ret.
  rewrite H1, H2, H3, H4, get_events_eq. unfold events_fetched. simpl_iface.
  rewrite Hf. cbn zeta. simpl_iface. rewrite Hev.
  destruct (last old) as [x|]; [|by eexists].
  destruct Hl as [i ->]. by eexists.
Qed.

(** ** A failed event request inside a poll *)

Lemma set_events_same (s : iface) : set_events (events s) s = s.
Proof. by destruct s. Qed.

(** For [get_events], a request that fails is a request answered with no
    event. *)
Lemma get_events_failure_as_empty (w : world) (s : iface) (ex : exc) :
  get_hudmsg w (last_event_ID s) = Raise ex →
  get_events w s = get_events (with_hudmsg no_log w) s.
Proof.
  intros Hf. rewrite !get_events_eq. unfold events_fetched.
  cbn [get_hudmsg with_hudmsg no_log]. rewrite Hf. cbn zeta.
  destruct (events s) as [old|] eqn:Hev; [|by rewrite Hev].
  rewrite app_nil_r.
  assert (set_events (EvList old) s = s) as ->
    by (rewrite <- Hev; apply set_events_same).
  by rewrite Hev.
Qed.

Lemma bind_ext {A B} (m : M A) (k k' : A → M B) (s : iface) :
  (∀ a s', k a s' = k' a s') → bind m k s = bind m k' s.
Proof. intros H. unfold bind. destruct (m s) as [[a|e] s']; [apply H|done]. Qed.

(** The requests of a poll with [events=True] whose HUD request fails do
    what they do on an empty answer. *)
Lemma fetch_all_event_failure (w : world) (c : bool) (s : iface) :
  (∀ z, ∃ ex, get_hudmsg w z = Raise ex) →
  fetch_all w c true s = fetch_all (with_hudmsg no_log w) c true s.
Proof.
  intros Hf.
  assert (∀ s1, (get_events w ;; ret tt) s1
                = (get_events (with_hudmsg no_log w) ;; ret tt) s1) as Hev.
  { intros s1. destruct (Hf (last_event_ID s1)) as [ex Hex].
    unfold bind. by rewrite (get_events_failure_as_empty w s1 ex). }
  unfold fetch_all.
  change (get_comments (with_hudmsg no_log w)) with (get_comments w).
  cbn [map_download_files map_parse_meta get_indicators get_state with_hudmsg].
  do 7 (apply bind_ext; intros ? ?).
  apply Hev.
Qed.

(** Hence a poll with [events=True] whose HUD request fails ends exactly as
    it would have on an empty answer: the failure cannot move the status. *)
Lemma event_failure_harmless (w : world) (c : bool) (s : iface) :
  (∀ z, ∃ ex, get_hudmsg w z = Raise ex) →
  get_telemetry w c true s = get_telemetry (with_hudmsg no_log w) c true s.
Proof.
  intros Hf. unfold get_telemetry.
  change (classify (with_hudmsg no_log w)) with (classify w).
  unfold bind, modify, try_except.
  by rewrite (fetch_all_event_failure w c _ Hf).
Qed.

(** ** Scenario 1 *)

(** What [get_events] returns or raises depends on the event log only. *)
Lemma get_events_frame (w : world) (s s' : iface) :
  events s = events s' → last_event_ID s = last_event_ID s' →
  fst (get_events w s) = fst (get_events w s').
Proof.
  intros He Hl. rewrite !get_events_eq. unfold events_fetched.
  rewrite <- He, <- Hl. cbn zeta.
  destruct (get_hudmsg w (last_event_ID s)) as [l|ex];
    destruct (events s) as [old|] eqn:Hev; simpl_iface;
    rewrite <- ?He, ?Hev; try reflexivity.
  - destruct (last (old ++ l)) as [x|]; [by destruct (entry_id x)|done].
  - destruct (last old) as [x|]; [by destruct (entry_id x)|done].
Qed.

(** The requests of a poll return when each of them does. *)
Lemma fetch_all_returns (w : world) (c e : bool) (s : iface) :
  map_download_files w = Ok tt →
  map_parse_meta w = Ok tt →
  (∃ ind, get_indicators w = Ok ind) →
  (∃ st, get_state w = Ok st) →
  (c = true → ∃ l, fst (get_comments w s) = Ok l) →
  (e = true → ∃ l, fst (get_events w s) = Ok l) →
  wp (fetch_all w c e) (λ _ _, True) (λ _ _, False) s.
Proof.
  intros H1 H2 [ind Hind] [st Hst] Hc He.
  unfold fetch_all. rewrite H1, H2, Hind, Hst.
  repeat wp_next; try done.
  assert (∀ s1, events s1 = events s → last_event_ID s1 = last_event_ID s →
            wp (if e then get_events w;; ret tt else modify (set_events EvDict))
               (λ _ _, True) (λ _ _, False) s1) as Hev.
  { intros s1 E1 E2. destruct e; [|by apply wp_modify].
    destruct (He eq_refl) as [l Hl].
    apply wp_bind, wp_call. rewrite (get_events_frame w s1 s) by done.
    by rewrite Hl. }
  destruct c.
  - destruct (Hc eq_refl) as [l Hl].
    apply wp_bind, wp_call.
    match goal with |- context [get_comments w ?s0] =>
      destruct (get_comments_events_untouched w s0) as [E1 E2];
      rewrite (get_comments_frame w s0 s) by done
    end.
    rewrite Hl. apply wp_ret, Hev; [by rewrite E1|by rewrite E2].
  - apply wp_modify. by apply Hev.
Qed.

(** Of the collaborators, lines 185-235 ask only for the player's position. *)
Lemma classify_position (w w' : world) (s : iface) :
  map_player_lat w = map_player_lat w' →
  map_player_lon w = map_player_lon w' →
  classify w s = classify w' s.
Proof. intros Hlat Hlon. unfold classify, normalize. by rewrite Hlat, Hlon. Qed.

(** C1, amended. Whenever the server answers with the snapshots of
    scenario 1, the map collaborator succeeds and the log fetches the flags
    ask for do not raise, the poll returns [True] and ends [IN_FLIGHT] with
    pitch -2 and roll 3, whatever the instance and the flags; the altitude
    is the raw 1000: the prefix [fw] is not on the allow-list, so no
    conversion takes place. *)
Theorem scenario1_poll (w : world) (c e : bool) (s : iface) (lat lon : value) :
  map_download_files w = Ok tt →
  map_parse_meta w = Ok tt →
  get_indicators w = Ok scenario1_indicators →
  get_state w = Ok scenario1_state →
  map_player_lat w = Ok lat →
  map_player_lon w = Ok lon →
  (c = true → ∃ l, fst (get_comments w s) = Ok l) →
  (e = true → ∃ l, fst (get_events w s) = Ok l) →
  let r := get_telemetry w c e s in
  fst r = Ok true ∧
  status (snd r) = Status.IN_FLIGHT ∧
  basic_telemetry (snd r) !! "altitude" = Some (VInt 1000) ∧
  basic_telemetry (snd r) !! "pitch" = Some (VInt (-2)) ∧
  basic_telemetry (snd r) !! "roll" = Some (VInt 3).
Proof.
  intros H1 H2 Hind Hst Hlat Hlon Hc He. cbv zeta.
  set (s0 := set_basic_telemetry ∅ (set_full_telemetry ∅ (set_connected false s))).
  assert (∃ s1, fetch_all w c e s0 = (Ok tt, s1) ∧
                indicators s1 = scenario1_indicators ∧
                state s1 = scenario1_state) as (s1 & Hf & Hi1 & Hs1).
  { assert (c = true → ∃ l, fst (get_comments w s0) = Ok l) as Hc0.
    { intros Hct. destruct (Hc Hct) as [l Hl]. exists l.
      by rewrite <- Hl; apply get_comments_frame. }
    assert (e = true → ∃ l, fst (get_events w s0) = Ok l) as He0.
    { intros Het. destruct (He Het) as [l Hl]. exists l.
      by rewrite <- Hl; apply get_events_frame. }
    pose proof (wp_run _ _ _ _
      (fetch_all_returns w c e s0 H1 H2
         (ex_intro _ _ Hind) (ex_intro _ _ Hst) Hc0 He0)) as Hr.
    pose proof (wp_run _ _ _ _ (fetch_all_spec w c e s0)) as Hsp.
    destruct (fetch_all w c e s0) as [[[]|ex] s1]; cbn [fst snd] in Hr, Hsp;
      [|done].
    destruct Hsp as (Hi & Hs & _). exists s1. split; [done|].
    rewrite Hind in Hi. rewrite Hst in Hs.
    by injection Hi as <-; injection Hs as <-. }
  destruct (get_telemetry_after_fetch w c e s s1 Hf) as (-> & Hc1 & Hf1 & Hb1).
  rewrite (classify_position w (scenario1_world lat lon) s1) by done.
  destruct s1 as [cn ft bt ind st le lc cm ev stt].
  simpl in Hi1, Hs1, Hc1, Hf1, Hb1. subst cn ft bt ind st.
  vm_compute. by repeat split.
Qed.

Lemma scenario1_poll_witness :
  let w := with_hudmsg (one_event 5) (scenario1_world (VFloat 0) (VFloat 0)) in
  let r := get_telemetry w true true init in
  events (snd r) = EvList [Entry (Some 5) ∅] ∧
  fst r = Ok true ∧
  status (snd r) = Status.IN_FLIGHT ∧
  basic_telemetry (snd r) !! "altitude" = Some (VInt 1000) ∧
  basic_telemetry (snd r) !! "pitch" = Some (VInt (-2)) ∧
  basic_telemetry (snd r) !! "roll" = Some (VInt 3).
Proof.
  cbv zeta. split; [reflexivity|].
  apply (scenario1_poll
           (with_hudmsg (one_event 5) (scenario1_world (VFloat 0) (VFloat 0)))
           true true init (VFloat 0) (VFloat 0)).
  - reflexivity.
  - reflexivity.
  - reflexivity.
  - reflexivity.
  - reflexivity.
  - reflexivity.
  - intros _. by exists [].
  - intros _. by exists (EvList [Entry (Some 5) ∅]).
Defined.

Example scenario1_not_imperial : imperial "fw190" = false.
Proof. reflexivity. Qed.

Example scenario1_converted_value :
  py_mul_float (VInt 1000) FT_TO_M = Ok (VFloat F304_8).
Proof. reflexivity. Qed.

(** C1 as stated fails: the poll does not store 1000 * 0.3048 = 304.8. *)
Lemma scenario1_altitude_not_converted :
  let r := get_telemetry (scenario1_world (VFloat 0) (VFloat 0)) false false init in
  ¬ (status (snd r) = Status.IN_FLIGHT ∧
     basic_telemetry (snd r) !! "altitude" = Some (VFloat F304_8) ∧
     basic_telemetry (snd r) !! "pitch" = Some (VInt (-2)) ∧
     basic_telemetry (snd r) !! "roll" = Some (VInt 3)).
Proof. cbv zeta. intros (_ & H & _). vm_compute in H. discriminate H. Qed.

(** The conditions on the log fetches are needed: with the same snapshots,
    a poll that asks for events after a default poll, or for comments from
    a chat that does not answer, ends [OTHER_ERROR]. *)
Example scenario1_events_after_default_poll :
  let r := get_telemetry (scenario1_world (VFloat 0) (VFloat 0)) false true
             after_default_poll in
  fst r = Ok false ∧ status (snd r) = Status.OTHER_ERROR.
Proof. cbv zeta. split; reflexivity. Qed.

Example scenario1_chat_fails :
  let r := get_telemetry bad_chat_world true false init in
  fst r = Ok false ∧ status (snd r) = Status.OTHER_ERROR.
Proof. cbv zeta. split; reflexivity. Qed.

(** * Further properties of the module *)

(** ** [combine_dicts] as an operation *)

(** X1. Merging is associative, the empty dict is neutral on both sides,
    and merging a dict into itself changes nothing. *)
Theorem combine_dicts_algebra (a b c : gmap string value) :
  combine_dicts (PyDict (combine_dicts (PyDict a) (PyDict b))) (PyDict c)
  = combine_dicts (PyDict a) (PyDict (combine_dicts (PyDict b) (PyDict c))) ∧
  combine_dicts (PyDict a) (PyDict ∅) = a ∧
  combine_dicts (PyDict ∅) (PyDict a) = a ∧
  combine_dicts (PyDict a) (PyDict a) = a.
Proof.
  rewrite !combine_dicts_union. repeat split.
  - by rewrite (assoc_L (∪)).
  - by rewrite (left_id_L ∅ (∪)).
  - by rewrite (right_id_L ∅ (∪)).
  - by rewrite (idemp (∪)).
Qed.

(** X2. The merge of two dicts has the keys of both; a key of [from_dict]
    carries its value there, any other key keeps the value of [to_dict].
    When either argument is not a dict the result is the empty dict, and
    what the other held is dropped. *)
Theorem combine_dicts_entries (t f : gmap string value) :
  (∀ k, combine_dicts (PyDict t) (PyDict f) !! k
        = match f !! k with Some v => Some v | None => t !! k end) ∧
  dom (combine_dicts (PyDict t) (PyDict f)) = dom t ∪ dom f ∧
  (∀ v, combine_dicts (PyDict t) (PyOther v) = ∅ ∧
        combine_dicts (PyOther v) (PyDict f) = ∅).
Proof.
  rewrite combine_dicts_union. split; [|split].
  - intros k. rewrite lookup_union.
    by destruct (f !! k), (t !! k).
  - by rewrite dom_union_L, (comm_L (∪)).
  - done.
Qed.

(** ** [get_comments] *)

Lemma fold_max_in (l : list Z) (a : Z) : fold_left Z.max l a ∈ a :: l.
Proof.
  revert a. induction l as [|x l IH]; intros a; simpl; [by left|].
  specialize (IH (Z.max a x)). apply elem_of_cons in IH as [IH|IH].
  - rewrite IH. destruct (Z.max_spec a x) as [[_ ->]|[_ ->]];
      [right; left|left].
  - do 2 right. done.
Qed.

Lemma ids_of_raise (l : list entry) (e : exc) :
  ids_of l = Raise e → e = key_error "id" ∧ ∃ c, c ∈ l ∧ entry_id c = None.
Proof.
  induction l as [|c l IH]; simpl; [done|].
  destruct (entry_id c) as [i|] eqn:Hc.
  - destruct (ids_of l) as [ids|e'] eqn:Hl; [done|].
    intros [= <-]. destruct (IH eq_refl) as (-> & c' & Hin & Hnone).
    split; [done|]. exists c'. split; [by right|done].
  - intros [= <-]. split; [done|]. exists c. split; [by left|done].
Qed.

Lemma ids_of_missing (l : list entry) (c : entry) :
  c ∈ l → entry_id c = None → ids_of l = Raise (key_error "id").
Proof.
  induction l as [|c' l IH]; intros Hin Hnone; [by apply elem_of_nil in Hin|].
  simpl. apply elem_of_cons in Hin as [<-|Hin]; [by rewrite Hnone|].
  destruct (entry_id c'); [|done]. by rewrite IH.
Qed.

(** X3. When [get_comments] returns, it returns the stored list, which is
    the old list with the answer appended; if that list is not empty the
    new watermark is one of its ids and no id in it is larger, and if it is
    empty the watermark is left alone. *)
Theorem get_comments_returns (w : world) (s : iface) (l : list entry) :
  fst (get_comments w s) = Ok l →
  ∃ answer,
    get_gamechat w (last_comment_ID s) = Ok answer ∧
    l = comments s ++ answer ∧
    comments (snd (get_comments w s)) = l ∧
    match l with
    | [] => last_comment_ID (snd (get_comments w s)) = last_comment_ID s
    | _ :: _ =>
        ∃ ids, ids_of l = Ok ids ∧
               last_comment_ID (snd (get_comments w s)) ∈ ids ∧
               Forall (λ i, i ≤ last_comment_ID (snd (get_comments w s))) ids
    end.
Proof.
  rewrite get_comments_eq.
  destruct (get_gamechat w (last_comment_ID s)) as [answer|e]; [|done].
  destruct (comments s ++ answer) as [|c cs] eqn:Happ.
  - intros [= <-]. by exists answer.
  - destruct (ids_of (c :: cs)) as [ids|e] eqn:Hids; [|done].
    destruct ids as [|i ids]; [done|]. cbn [py_max].
    intros [= <-]. exists answer. simpl_iface. repeat split; try done.
    exists (i :: ids). split; [done|]. split; [apply fold_max_in|].
    apply Forall_forall. intros x Hx.
    apply elem_of_cons in Hx as [->|Hx];
      [apply fold_max_ge|by apply fold_max_ge_elem].
Qed.

Lemma get_comments_returns_witness :
  let w := World (Ok tt) (Ok tt) (Ok true) (Ok VNone) (Ok VNone)
             (Ok menu_indicators) (Ok valid_state)
             (λ _, Ok [Entry (Some 3) ∅; Entry (Some 1) ∅; Entry (Some 5) ∅])
             no_log in
  fst (get_comments w init)
    = Ok [Entry (Some 3) ∅; Entry (Some 1) ∅; Entry (Some 5) ∅] ∧
  last_comment_ID (snd (get_comments w init)) = 5 ∧
  ∃ answer, get_gamechat w (last_comment_ID init) = Ok answer.
Proof.
  cbv zeta. split; [reflexivity|]. split; [reflexivity|].
  destruct (get_comments_returns
              (World (Ok tt) (Ok tt) (Ok true) (Ok VNone) (Ok VNone)
                 (Ok menu_indicators) (Ok valid_state)
                 (λ _, Ok [Entry (Some 3) ∅; Entry (Some 1) ∅; Entry (Some 5) ∅])
                 no_log)
              init _ eq_refl) as (answer & H & _).
  by exists answer.
Defined.

Lemma ids_of_all (l : list entry) :
  if forallb (λ c, bool_decide (is_Some (entry_id c))) l
  then ∃ ids, ids_of l = Ok ids ∧ length ids = length l
  else ids_of l = Raise (key_error "id").
Proof.
  induction l as [|c l IH]; simpl; [by exists []|].
  destruct (entry_id c) as [i|] eqn:Hc.
  - rewrite bool_decide_eq_true_2 by done. cbn [andb].
    destruct (forallb _ l).
    + destruct IH as (ids & -> & Hlen). exists (i :: ids). simpl. by rewrite Hlen.
    + by rewrite IH.
  - rewrite bool_decide_eq_false_2 by (by intros [? ?]). done.
Qed.

(** X4. The outcomes of [get_comments], for comments that are objects
    whose id is an integer or absent. When the request raises, the same
    exception leaves the method and the instance is untouched. When it
    answers and every comment of the old list and of the answer has an id,
    the method returns the old list with the answer appended. When it
    answers and some comment of either has no id, the answer has already
    been appended, [KeyError('id')] leaves the method and nothing else has
    changed, the watermark included. *)
Theorem get_comments_raise_cases (w : world) (s : iface) :
  match get_gamechat w (last_comment_ID s) with
  | Raise ex => get_comments w s = (Raise ex, s)
  | Ok answer =>
      if forallb (λ c, bool_decide (is_Some (entry_id c))) (comments s ++ answer)
      then fst (get_comments w s) = Ok (comments s ++ answer)
      else get_comments w s
           = (Raise (key_error "id"), set_comments (comments s ++ answer) s)
  end.
Proof.
  rewrite get_comments_eq.
  destruct (get_gamechat w (last_comment_ID s)) as [answer|ex]; [|done].
  pose proof (ids_of_all (comments s ++ answer)) as Hall.
  destruct (comments s ++ answer) as [|c cs]; [done|].
  destruct (forallb _ (c :: cs)).
  - destruct Hall as (ids & -> & Hlen).
    destruct ids as [|i ids]; [discriminate Hlen|done].
  - by rewrite Hall.
Qed.

Lemma get_comments_raise_cases_witness :
  let w := World (Ok tt) (Ok tt) (Ok true) (Ok VNone) (Ok VNone)
             (Ok menu_indicators) (Ok valid_state)
             (λ _, Ok [Entry (Some 3) ∅; Entry None ∅]) no_log in
  get_comments w init
  = (Raise (key_error "id"),
     set_comments [Entry (Some 3) ∅; Entry None ∅] init) ∧
  get_comments refused_world init = (Raise connection_refused, init).
Proof.
  cbv zeta. split.
  - pose proof (get_comments_raise_cases
                  (World (Ok tt) (Ok tt) (Ok true) (Ok VNone) (Ok VNone)
                     (Ok menu_indicators) (Ok valid_state)
                     (λ _, Ok [Entry (Some 3) ∅; Entry None ∅]) no_log)
                  init) as H.
    exact H.
  - pose proof (get_comments_raise_cases refused_world init) as H. exact H.
Defined.

(** X5. A comment without an id poisons the list: while one is stored,
    every call of [get_comments], whatever the server answers, raises, keeps
    such a comment in the list and leaves the watermark where it was. *)
Theorem get_comments_poisoned (w : world) (s : iface) (c : entry) :
  c ∈ comments s → entry_id c = None →
  (∃ ex, fst (get_comments w s) = Raise ex) ∧
  c ∈ comments (snd (get_comments w s)) ∧
  last_comment_ID (snd (get_comments w s)) = last_comment_ID s.
Proof.
  intros Hin Hnone. rewrite get_comments_eq.
  destruct (get_gamechat w (last_comment_ID s)) as [answer|e];
    [|by split; [eexists|]].
  assert (c ∈ comments s ++ answer) as Hin' by (apply elem_of_app; by left).
  pose proof (ids_of_missing _ _ Hin' Hnone) as Hids.
  destruct (comments s ++ answer) as [|c0 cs]; [by apply elem_of_nil in Hin'|].
  rewrite Hids. simpl_iface. by split; [eexists|].
Qed.

Lemma get_comments_poisoned_witness :
  let bad := World (Ok tt) (Ok tt) (Ok true) (Ok VNone) (Ok VNone)
               (Ok menu_indicators) (Ok valid_state)
               (λ _, Ok [Entry None ∅]) no_log in
  let s := run_call CallGetComments bad init in
  Entry None ∅ ∈ comments s ∧
  (∃ ex, fst (get_comments honest_world s) = Raise ex) ∧
  Entry None ∅ ∈ comments (snd (get_comments honest_world s)) ∧
  last_comment_ID (snd (get_comments honest_world s)) = last_comment_ID s.
Proof.
  cbv zeta.
  set (s := run_call CallGetComments
              (World (Ok tt) (Ok tt) (Ok true) (Ok VNone) (Ok VNone)
                 (Ok menu_indicators) (Ok valid_state)
                 (λ _, Ok [Entry None ∅]) no_log) init).
  assert (Entry None ∅ ∈ comments s) as Hin by (vm_compute; by left).
  split; [exact Hin|].
  exact (get_comments_poisoned honest_world s (Entry None ∅) Hin eq_refl).
Defined.

(** ** [get_events] *)

(** The entries the first [try] of [get_events] appends. *)
Lemma events_fetched_list (w : world) (s : iface) (old : list entry) :
  events s = EvList old →
  events (events_fetched w s)
  = EvList (old ++ match get_hudmsg w (last_event_ID s) with
                   | Ok damage => damage
                   | Raise _ => []
                   end) ∧
  last_event_ID (events_fetched w s) = last_event_ID s.
Proof.
  intros Hev. unfold events_fetched. rewrite Hev.
  destruct (get_hudmsg w (last_event_ID s)); simpl_iface; [done|].
  by rewrite Hev, app_nil_r.
Qed.

(** X6. When [get_events] raises, for events that are objects whose id is
    an integer or absent. On the dict it raises [KeyError(-1)] and leaves
    the instance untouched, whatever the request does. On a list it looks
    at the last entry of the old list followed by the [damage] entries of
    the answer (by nothing when the request raised, which is swallowed): if
    that entry has no id it raises [KeyError('id')] with the entries stored
    and the watermark untouched, and in every other case it returns. *)
Theorem get_events_raise_cases (w : world) (s : iface) :
  match events s with
  | EvDict => get_events w s = (Raise (Exc KeyError "-1"), s)
  | EvList old =>
      match last (old ++ match get_hudmsg w (last_event_ID s) with
                         | Ok damage => damage
                         | Raise _ => []
                         end) with
      | Some e =>
          match entry_id e with
          | None =>
              fst (get_events w s) = Raise (key_error "id") ∧
              events (snd (get_events w s))
              = EvList (old ++ match get_hudmsg w (last_event_ID s) with
                               | Ok damage => damage
                               | Raise _ => []
                               end) ∧
              last_event_ID (snd (get_events w s)) = last_event_ID s
          | Some _ => ∃ r, fst (get_events w s) = Ok r
          end
      | None => ∃ r, fst (get_events w s) = Ok r
      end
  end.
Proof.
  destruct (events s) as [old|] eqn:Hev; [|by apply get_events_dict].
  destruct (events_fetched_list w s old Hev) as [Hl Hw].
  rewrite get_events_eq. cbn zeta. rewrite Hl.
  set (l := old ++ _) in *.
  destruct (last l) as [e|]; [|by eexists].
  destruct (entry_id e) as [i|]; [by eexists|].
  simpl_iface. by rewrite Hl.
Qed.

Lemma get_events_raise_cases_witness :
  get_events refused_world after_default_poll
  = (Raise (Exc KeyError "-1"), after_default_poll) ∧
  ∃ r, fst (get_events refused_world init) = Ok r.
Proof.
  split.
  - pose proof (get_events_raise_cases refused_world after_default_poll) as H.
    exact H.
  - pose proof (get_events_raise_cases refused_world init) as H. exact H.
Defined.

(** X7. When [get_events] returns, the attribute was a list; it returns the
    stored list, which is the old one followed by the [damage] entries of
    the answer (by nothing when the request failed); the new watermark is
    the id of the last entry of that list, whatever the other ids are, and
    is left alone when the list is empty. *)
Theorem get_events_returns (w : world) (s : iface) (r : events_store) :
  fst (get_events w s) = Ok r →
  ∃ old,
    events s = EvList old ∧
    r = events (snd (get_events w s)) ∧
    r = EvList (old ++ match get_hudmsg w (last_event_ID s) with
                       | Ok damage => damage
                       | Raise _ => []
                       end) ∧
    match last (old ++ match get_hudmsg w (last_event_ID s) with
                       | Ok damage => damage
                       | Raise _ => []
                       end) with
    | Some e => entry_id e = Some (last_event_ID (snd (get_events w s)))
    | None => last_event_ID (snd (get_events w s)) = last_event_ID s
    end.
Proof.
  destruct (events s) as [old|] eqn:Hev; [|by rewrite get_events_dict].
  destruct (events_fetched_list w s old Hev) as [Hl Hw].
  rewrite get_events_eq. cbn zeta. rewrite Hl.
  set (l := old ++ _) in *.
  destruct (last l) as [e|] eqn:Hlast.
  - destruct (entry_id e) as [i|] eqn:He; [|done].
    intros [= <-]. exists old. simpl_iface. fold l. by rewrite Hl, Hlast.
  - intros [= <-]. exists old. simpl_iface. fold l. by rewrite Hl, Hlast.
Qed.

Lemma get_events_returns_witness :
  let s := run_call CallGetEvents (hud_world 5) init in
  fst (get_events (hud_world 3) s) = Ok (EvList [Entry (Some 5) ∅; Entry (Some 3) ∅]) ∧
  last_event_ID (snd (get_events (hud_world 3) s)) = 3 ∧
  ∃ old, events s = EvList old.
Proof.
  cbv zeta. split; [reflexivity|]. split; [reflexivity|].
  destruct (get_events_returns (hud_world 3)
              (run_call CallGetEvents (hud_world 5) init) _ eq_refl)
    as (old & H & _).
  by exists old.
Defined.

(** X8. On a list of events that all carry an id, [get_events] never
    raises, whether the request fails or answers with entries that carry
    ids. *)
Theorem get_events_never_raises_on_ids (w : world) (s : iface) (old : list entry) :
  events s = EvList old →
  Forall (λ e, is_Some (entry_id e)) old →
  (∀ damage, get_hudmsg w (last_event_ID s) = Ok damage →
             Forall (λ e, is_Some (entry_id e)) damage) →
  ∃ l, fst (get_events w s) = Ok (EvList l) ∧
       Forall (λ e, is_Some (entry_id e)) l.
Proof.
  intros Hev Hold Hnew.
  destruct (events_fetched_list w s old Hev) as [Hl _].
  rewrite get_events_eq. cbn zeta. rewrite Hl.
  set (l := old ++ _) in *.
  assert (Forall (λ e, is_Some (entry_id e)) l) as Hall.
  { subst l. apply Forall_app. split; [done|].
    destruct (get_hudmsg w (last_event_ID s)) as [damage|]; [by apply Hnew|done]. }
  exists l. split; [|done].
  destruct (last l) as [e|] eqn:Hlast; [|done].
  apply last_Some_elem_of in Hlast.
  rewrite Forall_forall in Hall. destruct (Hall e Hlast) as [i ->]. done.
Qed.

Lemma get_events_never_raises_on_ids_witness :
  let s := run_call CallGetEvents (hud_world 5) init in
  events s = EvList [Entry (Some 5) ∅] ∧
  ∃ l, fst (get_events refused_world s) = Ok (EvList l) ∧
       Forall (λ e, is_Some (entry_id e)) l.
Proof.
  cbv zeta. split; [reflexivity|].
  apply (get_events_never_raises_on_ids refused_world
           (run_call CallGetEvents (hud_world 5) init) [Entry (Some 5) ∅]).
  - reflexivity.
  - repeat constructor. by eexists.
  - intros damage H. discriminate H.
Defined.

(** ** [find_altitude] *)

Lemma py_mul_float_raise (v : value) (c : float) (ex : exc) :
  py_mul_float v c = Raise ex →
  (exc_type ex = TypeError ∧ (v = VNone ∨ ∃ s, v = VStr s)) ∨
  (exc_type ex = OverflowError ∧ ∃ z, v = VInt z).
Proof.
  destruct v as [|b|z|f|s]; simpl.
  - intros [= <-]. left. split; [done|by left].
  - destruct b; vm_compute; intros H; discriminate H.
  - unfold float_of_int.
    destruct (binary_normalize prec emax z 0 false); try done.
    intros [= <-]. right. split; [done|by eexists].
  - done.
  - intros [= <-]. left. split; [done|right; by eexists].
Qed.

(** X9. How [find_altitude] fails. On a snapshot without [type] it raises
    [KeyError('type')]. On one whose [type] is a string it raises for an
    airframe on the allow-list only, and then only with the [TypeError] or
    [OverflowError] of multiplying the chosen altitude by [FT_TO_M]; off the
    allow-list it always returns, with 0 or a value of the snapshot. *)
Theorem find_altitude_errors (self : iface) :
  (indicators self !! "type" = None →
   find_altitude self = Raise (key_error "type")) ∧
  (∀ name, indicators self !! "type" = Some (VStr name) →
     (∀ ex, find_altitude self = Raise ex →
            imperial name = true ∧
            ∃ v, preferred_altitude (indicators self) = Some v ∧
                 py_mul_float v FT_TO_M = Raise ex ∧
                 (exc_type ex = TypeError ∨ exc_type ex = OverflowError)) ∧
     (imperial name = false →
      ∃ v, find_altitude self = Ok v ∧
           (v = VInt 0 ∨ ∃ k, indicators self !! k = Some v))).
Proof.
  split; [apply find_altitude_missing_type|].
  intros name Hty.
  unfold find_altitude, subscript, preferred_altitude, imperial.
  rewrite !has_key_lookup, Hty. cbn [slice2].
  destruct (in_list (String.substring 0 2 name) METRICS_PLANES) eqn:Himp.
  - split; [|intros H; discriminate H].
    intros ex Hex. split; [done|].
    destruct (indicators self !! "altitude_10k") as [v|];
      [|destruct (indicators self !! "altitude_hour") as [v|];
        [|destruct (indicators self !! "altitude_min") as [v|]; [|done]]];
      (exists v; repeat split; try done;
       destruct (py_mul_float_raise _ _ _ Hex) as [[? _]|[? _]];
       [by left|by right]).
  - split.
    + intros ex.
      destruct (indicators self !! "altitude_10k");
        destruct (indicators self !! "altitude_hour");
        destruct (indicators self !! "altitude_min"); done.
    + intros _.
      destruct (indicators self !! "altitude_10k") as [v|] eqn:H1;
        [by exists v; split; [|right; exists "altitude_10k"]|].
      destruct (indicators self !! "altitude_hour") as [v|] eqn:H2;
        [by exists v; split; [|right; exists "altitude_hour"]|].
      destruct (indicators self !! "altitude_min") as [v|] eqn:H3;
        [by exists v; split; [|right; exists "altitude_min"]|].
      exists (VInt 0). split; [done|by left].
Qed.

Lemma find_altitude_errors_witness :
  let self := set_indicators
                (<["type" := VStr "p-51d"]> (<["altitude_10k" := VStr "n/a"]> ∅)) init in
  find_altitude self
    = Raise (Exc TypeError "can't multiply sequence by non-int of type 'float'") ∧
  find_altitude (set_indicators
                   (<["type" := VStr "bf-109"]> (<["altitude_10k" := VStr "n/a"]> ∅)) init)
    = Ok (VStr "n/a") ∧
  ∃ v, find_altitude (set_indicators
                        (<["type" := VStr "bf-109"]> (<["altitude_10k" := VStr "n/a"]> ∅))
                        init) = Ok v.
Proof.
  cbv zeta. split; [reflexivity|]. split; [reflexivity|].
  set (self := set_indicators
                 (<["type" := VStr "bf-109"]> (<["altitude_10k" := VStr "n/a"]> ∅)) init).
  assert (indicators self !! "type" = Some (VStr "bf-109")) as Hty by reflexivity.
  assert (imperial "bf-109" = false) as Himp by reflexivity.
  destruct (proj2 (proj2 (find_altitude_errors self) "bf-109" Hty) Himp)
    as (v & Hv & _).
  by exists v.
Defined.

Lemma metrics_planes_length (x : string) :
  in_list x METRICS_PLANES = true → String.length x = 2%nat.
Proof.
  unfold in_list. intros H. apply existsb_exists in H as (p & Hin & Heq).
  apply String.eqb_eq in Heq as ->.
  assert (Forall (λ p, String.length p = 2%nat) METRICS_PLANES) as Hall
    by (repeat constructor).
  rewrite Forall_forall in Hall. apply Hall. by apply list_elem_of_In.
Qed.

Lemma imperial_short (name : string) :
  (String.length name < 2)%nat → imperial name = false.
Proof.
  intros Hlen. unfold imperial.
  destruct (in_list (String.substring 0 2 name) METRICS_PLANES) eqn:H; [|done].
  apply metrics_planes_length in H.
  destruct name as [|a [|b rest]]; simpl in *; lia.
Qed.

(** X10. A [type] shorter than two characters (the empty string included)
    is never on the allow-list: [find_altitude] returns the chosen altitude
    unconverted, or 0, and does not raise. *)
Theorem find_altitude_short_type (self : iface) (name : string) :
  indicators self !! "type" = Some (VStr name) →
  (String.length name < 2)%nat →
  find_altitude self
  = Ok (default (VInt 0) (preferred_altitude (indicators self))).
Proof.
  intros Hty Hlen. apply imperial_short in Hlen.
  unfold imperial in Hlen.
  unfold find_altitude, subscript, preferred_altitude.
  rewrite !has_key_lookup, Hty. cbn [slice2]. rewrite Hlen.
  destruct (indicators self !! "altitude_10k");
    destruct (indicators self !! "altitude_hour");
    destruct (indicators self !! "altitude_min"); done.
Qed.

Lemma find_altitude_short_type_witness :
  let self := set_indicators
                (<["type" := VStr EmptyString]> (<["altitude_min" := VInt 120]> ∅)) init in
  indicators self !! "type" = Some (VStr EmptyString) ∧
  find_altitude self = Ok (VInt 120).
Proof.
  cbv zeta. split; [reflexivity|].
  rewrite (find_altitude_short_type
             (set_indicators
                (<["type" := VStr EmptyString]> (<["altitude_min" := VInt 120]> ∅)) init)
             EmptyString).
  - reflexivity.
  - reflexivity.
  - simpl. lia.
Defined.

(** ** What a poll leaves behind *)

Lemma status_of_exception_cases (ex : exc) :
  status_of_exception ex = Status.WT_NOT_RUNNING ∨
  status_of_exception ex = Status.OTHER_ERROR.
Proof. unfold status_of_exception. destruct (contains _ _); [by left|by right]. Qed.

Lemma get_telemetry_consistent (w : world) (c e : bool) (s : iface) :
  wp (get_telemetry w c e)
     (λ b s', b = connected s' ∧ poll_consistent s') (λ _ _, False) s.
Proof.
  unfold get_telemetry. do 6 wp_next.
  apply wp_bind, wp_try_except, wp_bind.
  assert (∀ ex s', connected s' = false →
            wp (modify (set_status (status_of_exception ex)) ;; gets connected)
               (λ b s'0, b = connected s'0 ∧ poll_consistent s'0)
               (λ _ _, False) s') as Hexc.
  { intros ex s' Hs'. apply wp_bind, wp_modify, wp_gets. split; [done|].
    right. split; [done|]. simpl_iface.
    destruct (status_of_exception_cases ex) as [->| ->]; auto. }
  assert (∀ z s', connected s' = false →
            z = Status.IN_MENU ∨ z = Status.NO_MISSION →
            wp (gets connected)
               (λ b s'0, b = connected s'0 ∧ poll_consistent s'0)
               (λ _ _, False) (set_status z s')) as Hset.
  { intros z s' Hs' Hz. apply wp_gets. split; [done|].
    right. split; [done|]. simpl_iface. destruct Hz as [->| ->]; auto. }
  eapply wp_mono; [apply fetch_all_spec| |]; simpl_iface; cbv beta.
  - intros _ s1 (_ & _ & Hc1 & _).
    unfold classify. apply wp_bind, wp_both_valid. unfold except_Exception.
    destruct (indicators s1 !! "valid") as [v1|]; [|by apply Hexc].
    assert (wp (modify (set_status Status.NO_MISSION))
              (λ _ s2, wp (gets connected)
                 (λ b s'0, b = connected s'0 ∧ poll_consistent s'0)
                 (λ _ _, False) s2)
              (λ ex s2, wp (modify (set_status (status_of_exception ex)) ;;
                            gets connected)
                 (λ b s'0, b = connected s'0 ∧ poll_consistent s'0)
                 (λ _ _, False) s2) s1) as Hno
      by (apply wp_modify, Hset; auto).
    destruct (truthy v1); [|exact Hno].
    destruct (state s1 !! "valid") as [v2|]; [|by apply Hexc].
    destruct (truthy v2); [|exact Hno]. clear Hno.
    apply wp_try_except.
    eapply wp_mono; [by apply normalize_spec| |]; cbv beta.
    + intros _ s2 (Hc2 & Hs2 & _). apply wp_gets. split; [done|]. by left.
    + intros ex s2 (Hc2 & _). unfold except.
      destruct (class_in _ _); [apply wp_modify, Hset; auto|by apply Hexc].
  - intros ex s1 (Hc1 & _). unfold except_Exception. by apply Hexc.
Qed.

(** X11. [get_telemetry] never raises. It returns the [connected] flag, and
    that flag is set exactly when the status it recorded is [IN_FLIGHT];
    otherwise the status is one of the four other codes. *)
Theorem poll_outcome (w : world) (c e : bool) (s : iface) :
  fst (get_telemetry w c e s) = Ok (connected (snd (get_telemetry w c e s))) ∧
  (connected (snd (get_telemetry w c e s)) = true
   ↔ status (snd (get_telemetry w c e s)) = Status.IN_FLIGHT) ∧
  status (snd (get_telemetry w c e s))
    ∈ [Status.IN_FLIGHT; Status.IN_MENU; Status.NO_MISSION;
       Status.WT_NOT_RUNNING; Status.OTHER_ERROR].
Proof.
  pose proof (wp_run _ _ _ _ (get_telemetry_consistent w c e s)) as H.
  destruct (fst (get_telemetry w c e s)) as [b|ex]; [|done].
  destruct H as [-> H]. split; [done|].
  unfold poll_consistent in H.
  destruct H as [[Hc Hs]|[Hc Hs]]; rewrite Hc, Hs || rewrite Hc.
  - split; [done|]. by left.
  - split.
    + split; [done|]. intros H0.
      destruct Hs as [H|[H|[H|H]]]; rewrite H in H0; discriminate H0.
    + destruct Hs as [->|[->|[->| ->]]]; set_solver.
Qed.

(** ** What a connected poll publishes *)

(** Lines 187-230, with what they publish in [basic_telemetry]. *)
Lemma normalize_published (w : world) (s : iface) :
  wp (normalize w)
    (λ _ s',
       ∃ ind1 ind2 alt ty r p a lat lon,
         sign_fixed "aviahorizon_pitch" (indicators s) ind1 ∧
         sign_fixed "aviahorizon_roll" ind1 ind2 ∧
         find_altitude (set_indicators ind2 s) = Ok alt ∧
         indicators s' = <["alt_m" := alt]> ind2 ∧
         indicators s' !! "type" = Some ty ∧
         indicators s' !! "aviahorizon_roll" = Some r ∧
         indicators s' !! "aviahorizon_pitch" = Some p ∧
         indicators s' !! "alt_m" = Some a ∧
         map_player_lat w = Ok lat ∧ map_player_lon w = Ok lon ∧
         state s' = state s ∧
         basic_telemetry s' =
           <["gearState" := default VNone (state s !! "gear, %")]>
             (<["flapState" := default VNone (state s !! "flaps, %")]>
               (<["IAS" := default VNone (state s !! "IAS, km/h")]>
                 (<["lon" := lon]> (<["lat" := lat]>
                   (<["altitude" := a]> (<["pitch" := p]>
                     (<["roll" := r]> (<["airframe" := ty]>
                       (basic_telemetry s))))))))))
    (λ _ _, True)
    s.
Proof.
  unfold normalize.
  repeat wp_next; try done.
  do 9 eexists. 
  split; [eassumption|]. split; [eassumption|]. split; [eassumption|].
  split; [reflexivity|].
  split; [eassumption|]. split; [eassumption|]. split; [eassumption|].
  split; [eassumption|].
  split; [reflexivity|]. split; [reflexivity|]. split; reflexivity.
Qed.

Lemma wp_conj {A} (m : M A) (Qn Qn' : A → iface → Prop)
    (Qe Qe' : exc → iface → Prop) (s : iface) :
  wp m Qn Qe s → wp m Qn' Qe' s →
  wp m (λ a s', Qn a s' ∧ Qn' a s') (λ e s', Qe e s' ∧ Qe' e s') s.
Proof. unfold wp. by destruct (m s) as [[a|e] s']. Qed.

(** [find_altitude] reads four keys of [indicators] and nothing else. *)
Lemma find_altitude_reads (s s' : iface) :
  (∀ k, k ∈ ["type"; "altitude_10k"; "altitude_hour"; "altitude_min"] →
        indicators s' !! k = indicators s !! k) →
  find_altitude s' = find_altitude s.
Proof.
  intros H. unfold find_altitude, subscript, has_key.
  rewrite (H "type"), (H "altitude_10k"), (H "altitude_hour"),
    (H "altitude_min") by set_solver.
  reflexivity.
Qed.

(** A connected poll, with what it stored and published. *)
Lemma get_telemetry_published (w : world) (c e : bool) (s : iface) :
  wp (get_telemetry w c e)
    (λ _ s',
       connected s' = true →
       ∃ ind ind1 ind2 alt ty r p a lat lon,
         get_indicators w = Ok ind ∧
         get_state w = Ok (state s') ∧
         sign_fixed "aviahorizon_pitch" ind ind1 ∧
         sign_fixed "aviahorizon_roll" ind1 ind2 ∧
         find_altitude (set_indicators ind2 init) = Ok alt ∧
         indicators s' = <["alt_m" := alt]> ind2 ∧
         indicators s' !! "type" = Some ty ∧
         indicators s' !! "aviahorizon_roll" = Some r ∧
         indicators s' !! "aviahorizon_pitch" = Some p ∧
         indicators s' !! "alt_m" = Some a ∧
         map_player_lat w = Ok lat ∧ map_player_lon w = Ok lon ∧
         basic_telemetry s' =
           <["gearState" := default VNone (state s' !! "gear, %")]>
             (<["flapState" := default VNone (state s' !! "flaps, %")]>
               (<["IAS" := default VNone (state s' !! "IAS, km/h")]>
                 (<["lon" := lon]> (<["lat" := lat]>
                   (<["altitude" := a]> (<["pitch" := p]>
                     (<["roll" := r]> (<["airframe" := ty]> ∅)))))))))
    (λ _ _, True)
    s.
Proof.
  match goal with |- wp _ ?Q _ _ => set (Qn := Q) end.
  unfold get_telemetry. do 6 wp_next.
  apply wp_bind, wp_try_except, wp_bind.
  assert (∀ s', connected s' = false →
            wp (gets connected) Qn (λ _ _, True) s') as Hout.
  { intros s' Hs'. apply wp_gets. intros Ht.
    rewrite Hs' in Ht. discriminate Ht. }
  eapply wp_mono; [apply fetch_all_spec| |]; simpl_iface; cbv beta.
  - intros _ s1 (Hind & Hst & Hc1 & _ & Hb1).
    unfold classify. apply wp_bind, wp_both_valid.
    unfold except_Exception.
    destruct (indicators s1 !! "valid") as [v1|];
      [|by apply wp_modify, Hout].
    assert (wp (modify (set_status Status.NO_MISSION))
              (λ _ s2, wp (gets connected) Qn (λ _ _, True) s2)
              (λ ex s2, wp (modify (set_status (status_of_exception ex)) ;;
                            gets connected) Qn (λ _ _, True) s2) s1) as Hno
      by (by apply wp_modify, Hout).
    destruct (truthy v1); [|exact Hno].
    destruct (state s1 !! "valid") as [v2|]; [|by apply wp_modify, Hout].
    destruct (truthy v2); [|exact Hno]. clear Hno.
    apply wp_try_except.
    eapply wp_mono;
      [apply wp_conj; [by apply normalize_spec|apply normalize_published]| |];
      cbv beta.
    + intros _ s2 [_ H].
      destruct H as (ind1 & ind2 & alt & ty & r & p & a & lat & lon & Hp & Hr
                     & Halt & Hi2 & Hty & Hro & Hpi & Ha & Hlat & Hlon & Hst2 & Hb2).
      apply wp_gets. intros _.
      exists (indicators s1), ind1, ind2, alt, ty, r, p, a, lat, lon.
      rewrite Hst2. rewrite Hb1 in Hb2.
      do 4 (split; [assumption|]).
      split; [rewrite <- Halt; by apply find_altitude_reads|].
      do 7 (split; [assumption|]). exact Hb2.
    + intros ex s2 [(Hc2 & _) _]. unfold except.
      destruct (class_in _ _); by apply wp_modify, Hout.
  - intros ex s1 (Hc1 & _). unfold except_Exception. by apply wp_modify, Hout.
Qed.

(** X12. When a poll returns [True], [basic_telemetry] has exactly nine
    keys: the airframe, roll, pitch and altitude are the stored indicators'
    [type], [aviahorizon_roll], [aviahorizon_pitch] and [alt_m]; [lat] and
    [lon] are the map collaborator's position; [IAS], [flapState] and
    [gearState] are the state's [IAS, km/h], [flaps, %] and [gear, %], or
    [None] where the state has no such key. *)
Theorem poll_basic_telemetry (w : world) (c e : bool) (s : iface) :
  fst (get_telemetry w c e s) = Ok true →
  let s' := snd (get_telemetry w c e s) in
  dom (basic_telemetry s')
    = ({[ "airframe"; "roll"; "pitch"; "altitude"; "lat"; "lon";
          "IAS"; "flapState"; "gearState" ]} : gset string) ∧
  is_Some (basic_telemetry s' !! "airframe") ∧
  basic_telemetry s' !! "airframe" = indicators s' !! "type" ∧
  basic_telemetry s' !! "roll" = indicators s' !! "aviahorizon_roll" ∧
  basic_telemetry s' !! "pitch" = indicators s' !! "aviahorizon_pitch" ∧
  basic_telemetry s' !! "altitude" = indicators s' !! "alt_m" ∧
  (∃ lat, map_player_lat w = Ok lat ∧ basic_telemetry s' !! "lat" = Some lat) ∧
  (∃ lon, map_player_lon w = Ok lon ∧ basic_telemetry s' !! "lon" = Some lon) ∧
  basic_telemetry s' !! "IAS" = Some (default VNone (state s' !! "IAS, km/h")) ∧
  basic_telemetry s' !! "flapState" = Some (default VNone (state s' !! "flaps, %")) ∧
  basic_telemetry s' !! "gearState" = Some (default VNone (state s' !! "gear, %")).
Proof.
  intros Hret. cbv zeta.
  pose proof (get_telemetry_returns w c e s) as Hc.
  rewrite Hret in Hc. injection Hc as Hc. symmetry in Hc.
  pose proof (wp_run _ _ _ _ (get_telemetry_published w c e s)) as H.
  rewrite Hret in H.
  destruct (H Hc) as (ind & ind1 & ind2 & alt & ty & r & p & a & lat & lon
                      & _ & _ & _ & _ & _ & _ & Hty & Hro & Hpi & Ha
                      & Hlat & Hlon & Hb).
  rewrite Hb, Hty, Hro, Hpi, Ha.
  split; [rewrite !dom_insert_L, dom_empty_L; set_solver|].
  split; [by simplify_map_eq|].
  do 4 (split; [by simplify_map_eq|]).
  split; [exists lat; split; [done|by simplify_map_eq]|].
  split; [exists lon; split; [done|by simplify_map_eq]|].
  split; [by simplify_map_eq|]. split; by simplify_map_eq.
Qed.

Lemma poll_basic_telemetry_witness :
  let s' := snd (get_telemetry (scenario1_world (VFloat 0) (VFloat 0)) false false init) in
  fst (get_telemetry (scenario1_world (VFloat 0) (VFloat 0)) false false init) = Ok true ∧
  dom (basic_telemetry s')
    = ({[ "airframe"; "roll"; "pitch"; "altitude"; "lat"; "lon";
          "IAS"; "flapState"; "gearState" ]} : gset string) ∧
  basic_telemetry s' !! "gearState" = Some VNone.
Proof.
  cbv zeta. split; [reflexivity|].
  destruct (poll_basic_telemetry (scenario1_world (VFloat 0) (VFloat 0))
              false false init)
    as (Hdom & _ & _ & _ & _ & _ & _ & _ & _ & _ & Hgear).
  - reflexivity.
  - split; [exact Hdom|]. rewrite Hgear. reflexivity.
Defined.

Lemma sign_fixed_self (k : string) (ind ind' : gmap string value) :
  sign_fixed k ind ind' →
  ∃ v, ind' !! k = Some v ∧
       match ind !! k with
       | Some x => py_neg x = Ok v
       | None => v = VInt 0
       end.
Proof.
  unfold sign_fixed. destruct (ind !! k) as [x|].
  - intros (nx & Hneg & ->). exists nx. by simplify_map_eq.
  - intros ->. exists (VInt 0). by simplify_map_eq.
Qed.

(** X13. When a poll returns [True], the stored [indicators] are the
    server's answer with [aviahorizon_pitch] and [aviahorizon_roll] replaced
    by their negation (by [0] where the answer had none) and [alt_m] set to
    what [find_altitude] returns for the server's answer; every other key is
    as the server sent it, and [state] is the server's answer untouched. *)
Theorem poll_indicators_stored (w : world) (c e : bool) (s : iface) :
  fst (get_telemetry w c e s) = Ok true →
  let s' := snd (get_telemetry w c e s) in
  ∃ ind,
    get_indicators w = Ok ind ∧
    get_state w = Ok (state s') ∧
    (∃ p, indicators s' !! "aviahorizon_pitch" = Some p ∧
          match ind !! "aviahorizon_pitch" with
          | Some x => py_neg x = Ok p
          | None => p = VInt 0
          end) ∧
    (∃ r, indicators s' !! "aviahorizon_roll" = Some r ∧
          match ind !! "aviahorizon_roll" with
          | Some x => py_neg x = Ok r
          | None => r = VInt 0
          end) ∧
    (∃ alt, indicators s' !! "alt_m" = Some alt ∧
            find_altitude (set_indicators ind init) = Ok alt) ∧
    (∀ k, k ∉ ["aviahorizon_pitch"; "aviahorizon_roll"; "alt_m"] →
          indicators s' !! k = ind !! k).
Proof.
  intros Hret. cbv zeta.
  pose proof (get_telemetry_returns w c e s) as Hc.
  rewrite Hret in Hc. injection Hc as Hc. symmetry in Hc.
  pose proof (wp_run _ _ _ _ (get_telemetry_published w c e s)) as H.
  rewrite Hret in H.
  destruct (H Hc) as (ind & ind1 & ind2 & alt & _ & _ & _ & _ & _ & _
                      & Hind & Hst & Hp & Hr & Halt & Hi & _).
  exists ind. rewrite Hi. do 2 (split; [assumption|]).
  destruct (sign_fixed_self _ _ _ Hp) as (p & Hp1 & Hp2).
  destruct (sign_fixed_self _ _ _ Hr) as (r & Hr1 & Hr2).
  split.
  { exists p. split; [|exact Hp2].
    rewrite lookup_insert_ne by done.
    by rewrite (sign_fixed_other "aviahorizon_roll" "aviahorizon_pitch"
                  ind1 ind2 ltac:(discriminate) Hr). }
  split.
  { exists r. split; [by rewrite lookup_insert_ne by done|].
    by rewrite <- (sign_fixed_other "aviahorizon_pitch" "aviahorizon_roll"
                     ind ind1 ltac:(discriminate) Hp). }
  split.
  { exists alt. split; [by simplify_map_eq|].
    rewrite <- Halt. symmetry. apply find_altitude_reads. simpl_iface.
    intros k Hk.
    rewrite !elem_of_cons, elem_of_nil in Hk.
    assert (k ≠ "aviahorizon_pitch" ∧ k ≠ "aviahorizon_roll") as [Hkp Hkr]
      by (destruct Hk as [->|[->|[->|[->|[]]]]]; done).
    by rewrite (sign_fixed_other "aviahorizon_roll" k ind1 ind2 ltac:(done) Hr),
      (sign_fixed_other "aviahorizon_pitch" k ind ind1 ltac:(done) Hp). }
  intros k Hk.
  rewrite !not_elem_of_cons in Hk. destruct Hk as (Hkp & Hkr & Hka & _).
  rewrite lookup_insert_ne by done.
  by rewrite (sign_fixed_other "aviahorizon_roll" k ind1 ind2 ltac:(done) Hr),
    (sign_fixed_other "aviahorizon_pitch" k ind ind1 ltac:(done) Hp).
Qed.

Lemma poll_indicators_stored_witness :
  let s' := snd (get_telemetry (scenario1_world (VFloat 0) (VFloat 0)) false false init) in
  fst (get_telemetry (scenario1_world (VFloat 0) (VFloat 0)) false false init) = Ok true ∧
  ∃ ind, get_indicators (scenario1_world (VFloat 0) (VFloat 0)) = Ok ind ∧
         indicators s' !! "type" = ind !! "type".
Proof.
  cbv zeta. split; [reflexivity|].
  destruct (poll_indicators_stored (scenario1_world (VFloat 0) (VFloat 0))
              false false init)
    as (ind & Hind & _ & _ & _ & _ & Hk).
  - reflexivity.
  - exists ind. split; [exact Hind|]. apply Hk.
    rewrite !not_elem_of_cons. repeat split; try done. apply not_elem_of_nil.
Defined.

(** ** Polls that stop early, polls with the flags off *)

(** X14. When one of the first four requests of a poll raises (map files,
    map metadata, indicators, state), [get_telemetry] returns [False] with
    the status chosen by the text of that exception, both telemetry dicts
    empty, and the logs and the state snapshot as they were. The indicators
    are as they were too, except when it is the state request that raised:
    then they are already the new snapshot, next to the old state. *)
Theorem poll_request_failure (w : world) (c e : bool) (s : iface) (ex : exc)
    (stored : gmap string value) :
  (stored = indicators s ∧
   (map_download_files w = Raise ex ∨
    (map_download_files w = Ok tt ∧ map_parse_meta w = Raise ex) ∨
    (map_download_files w = Ok tt ∧ map_parse_meta w = Ok tt ∧
     get_indicators w = Raise ex))) ∨
  (map_download_files w = Ok tt ∧ map_parse_meta w = Ok tt ∧
   get_indicators w = Ok stored ∧ get_state w = Raise ex) →
  let s' := snd (get_telemetry w c e s) in
  fst (get_telemetry w c e s) = Ok false ∧
  status s' = status_of_exception ex ∧
  connected s' = false ∧ full_telemetry s' = ∅ ∧ basic_telemetry s' = ∅ ∧
  indicators s' = stored ∧ state s' = state s ∧ logs s' = logs s.
Proof.
  cbv zeta.
  unfold get_telemetry, fetch_all, try_except, except_Exception, bind, lift,
    modify, gets.
  intros [[-> [H1|[[H1 H2]|(H1 & H2 & H3)]]]|(H1 & H2 & H3 & H4)].
  - by rewrite H1.
  - by rewrite H1, H2.
  - by rewrite H1, H2, H3.
  - by rewrite H1, H2, H3, H4.
Qed.

Lemma poll_request_failure_witness :
  fst (get_telemetry refused_world true true after_default_poll) = Ok false ∧
  status (snd (get_telemetry refused_world true true after_default_poll))
    = Status.WT_NOT_RUNNING ∧
  indicators (snd (get_telemetry refused_world true true after_default_poll))
    = indicators after_default_poll.
Proof.
  destruct (poll_request_failure refused_world true true after_default_poll
              connection_refused (indicators after_default_poll))
    as (Hr & Hs & _ & _ & _ & Hi & _).
  - left. split; [reflexivity|]. right. right. repeat split; reflexivity.
  - split; [exact Hr|]. split; [|exact Hi]. rewrite Hs. reflexivity.
Defined.

(** X15. A poll with both flags off whose four requests answer empties the
    comment list and replaces the event list by the dict, and leaves both
    watermarks where they were, whatever the outcome of the poll. *)
Theorem default_poll_drops_logs (w : world) (s : iface)
    (ind st : gmap string value) :
  map_download_files w = Ok tt →
  map_parse_meta w = Ok tt →
  get_indicators w = Ok ind →
  get_state w = Ok st →
  let s' := snd (get_telemetry w false false s) in
  comments s' = [] ∧ events s' = EvDict ∧
  last_comment_ID s' = last_comment_ID s ∧
  last_event_ID s' = last_event_ID s.
Proof.
  intros H1 H2 H3 H4. cbv zeta.
  destruct (get_telemetry_after_fetch w false false s _
              (fetch_all_default w _ ind st H1 H2 H3 H4)) as [-> _].
  match goal with |- context [classify w ?s0] =>
    pose proof (classify_logs w s0) as Hl;
    destruct (classify w s0) as [[[]|ex] s2]
  end; unfold logs in Hl; simpl_iface; injection Hl; intros; by repeat split.
Qed.

Lemma default_poll_drops_logs_witness :
  let s := run_call CallGetEvents (hud_world 5) init in
  last_event_ID s = 5 ∧
  events (snd (get_telemetry honest_world false false s)) = EvDict ∧
  last_event_ID (snd (get_telemetry honest_world false false s)) = 5.
Proof.
  cbv zeta. split; [reflexivity|].
  destruct (default_poll_drops_logs honest_world
              (run_call CallGetEvents (hud_world 5) init)
              menu_indicators valid_state)
    as (_ & He & _ & Hl); try reflexivity.
  split; [exact He|]. rewrite Hl. reflexivity.
Defined.

(** ** [get_status] *)

(** Every way out of [get_status]. *)
Lemma get_status_spec (w : world) (s : iface) :
  wp (get_status w)
    (λ z s',
       status s' = status s ∧ full_telemetry s' = ∅ ∧
       comments s' = comments s ∧ last_comment_ID s' = last_comment_ID s ∧
       ((z = Status.IN_FLIGHT ∧ connected s' = true ∧
         ∃ ty, indicators s' !! "type" = Some ty ∧
               basic_telemetry s' = <["airframe" := ty]> ∅) ∨
        ((z = Status.IN_MENU ∨ z = Status.NO_MISSION ∨
          z = Status.WT_NOT_RUNNING ∨ z = Status.OTHER_ERROR) ∧
         connected s' = false ∧ basic_telemetry s' = ∅)))
    (λ _ _, False)
    s.
Proof.
  match goal with |- wp _ ?Q _ _ => set (Qn := Q) end.
  pose (P := λ s1 : iface,
          status s1 = status s ∧ full_telemetry s1 = ∅ ∧
          comments s1 = comments s ∧ last_comment_ID s1 = last_comment_ID s ∧
          connected s1 = false ∧ basic_telemetry s1 = ∅).
  assert (∀ z s1, P s1 →
            z = Status.IN_MENU ∨ z = Status.NO_MISSION ∨
            z = Status.WT_NOT_RUNNING ∨ z = Status.OTHER_ERROR →
            Qn z s1) as Hq.
  { intros z s1 (H1 & H2 & H3 & H4 & H5 & H6) Hz. unfold Qn.
    do 4 (split; [assumption|]). right. by repeat split. }
  unfold get_status. do 6 wp_next.
  match goal with
  | |- wp _ _ _ ?s1 =>
      assert (P s1) as HP0 by (by unfold P; simpl_iface); revert HP0;
      generalize s1; intros s0 HP0
  end.
  apply wp_try_except.
  apply (wp_mono _ Qn (λ _, P)); [|done|].
  2:{ intros ex s1 HP1. destruct (bool_decide _); apply wp_ret, Hq; auto.
      destruct (status_of_exception_cases ex) as [->| ->]; auto. }
  do 3 wp_next; [|done].
  match goal with
  | |- wp (if negb ?b then _ else _) _ _ _ => destruct b; cbn [negb]
  end; [|apply wp_ret, Hq; auto].
  repeat wp_next; try (by unfold P in *; simpl_iface).
  match goal with
  | |- wp _ _ _ ?s' =>
      assert (P s') as HP1 by (by unfold P in *; simpl_iface); revert HP1;
      generalize s'; intros s1 HP1
  end.
  apply wp_call.
  pose proof (get_events_tele w s1) as Ht.
  pose proof (get_events_comments_untouched w s1) as [Hc Hl].
  assert (P (snd (get_events w s1))) as HP2.
  { destruct HP1 as (Q1 & Q2 & Q3 & Q4 & Q5 & Q6).
    unfold tele in Ht. injection Ht; intros. unfold P.
    repeat split; congruence. }
  destruct (fst (get_events w s1)) as [evs|ex]; [|exact HP2].
  revert HP2. generalize (snd (get_events w s1)). clear dependent s1.
  intros s2 HP2.
  apply wp_bind, wp_both_valid.
  destruct (indicators s2 !! "valid") as [v1|]; [|done].
  destruct (truthy v1); [|apply wp_ret, Hq; auto].
  destruct (state s2 !! "valid") as [v2|]; [|done].
  destruct (truthy v2); [|apply wp_ret, Hq; auto].
  apply wp_try_except. unfold except.
  apply wp_bind, wp_getitem.
  destruct (indicators s2 !! "type") as [ty|] eqn:Hty.
  - repeat wp_next. unfold Qn. simpl_iface.
    destruct HP2 as (H1 & H2 & H3 & H4 & H5 & H6).
    do 4 (split; [assumption|]). left. do 2 (split; [reflexivity|]).
    exists ty. split; [assumption|]. by rewrite H6.
  - cbn. apply wp_ret, Hq; auto.
Qed.

(** X16. [get_status] never raises and returns one of the five codes. It
    never writes [self.status], always empties [full_telemetry], and leaves
    the comment log alone. It returns [IN_FLIGHT] exactly when it leaves
    [connected] set; then [basic_telemetry] holds the airframe and nothing
    else, and otherwise it is empty. *)
Theorem get_status_outcome (w : world) (s : iface) :
  let s' := snd (get_status w s) in
  ∃ z, fst (get_status w s) = Ok z ∧
       z ∈ [Status.IN_FLIGHT; Status.IN_MENU; Status.NO_MISSION;
            Status.WT_NOT_RUNNING; Status.OTHER_ERROR] ∧
       (z = Status.IN_FLIGHT ↔ connected s' = true) ∧
       status s' = status s ∧
       full_telemetry s' = ∅ ∧
       (if connected s'
        then ∃ ty, indicators s' !! "type" = Some ty ∧
                   basic_telemetry s' = {["airframe" := ty]}
        else basic_telemetry s' = ∅) ∧
       comments s' = comments s ∧ last_comment_ID s' = last_comment_ID s.
Proof.
  cbv zeta.
  pose proof (wp_run _ _ _ _ (get_status_spec w s)) as H.
  destruct (fst (get_status w s)) as [z|ex]; [|done].
  destruct H as (Hs & Hf & Hc & Hl & H).
  exists z. split; [done|].
  destruct H as [(-> & Hcon & ty & Hty & Hb)|(Hz & Hcon & Hb)]; rewrite Hcon.
  - split; [by left|]. split; [done|]. do 2 (split; [assumption|]).
    split; [|done]. exists ty. by rewrite Hb, insert_empty.
  - split.
    { rewrite !elem_of_cons. destruct Hz as [->|[->|[->| ->]]]; auto 10. }
    split; [|done]. split; [|done]. intros ->.
    destruct Hz as [Hz|[Hz|[Hz|Hz]]]; discriminate Hz.
Qed.

(** X17. When the battle check, the indicators request or the state request
    of [get_status] raises, it returns [WT_NOT_RUNNING] for a
    [ConnectTimeout] whatever its text, and for any other class the code
    chosen by the text; the event log is as it was, and [state] too. *)
Theorem get_status_request_failure (w : world) (s : iface) (ex : exc) :
  map_check_battle w = Raise ex ∨
  (map_check_battle w = Ok true ∧ get_indicators w = Raise ex) ∨
  (map_check_battle w = Ok true ∧ (∃ ind, get_indicators w = Ok ind) ∧
   get_state w = Raise ex) →
  let s' := snd (get_status w s) in
  fst (get_status w s)
    = Ok (if bool_decide (exc_type ex = ConnectTimeout)
          then Status.WT_NOT_RUNNING
          else status_of_exception ex) ∧
  connected s' = false ∧ basic_telemetry s' = ∅ ∧
  state s' = state s ∧ logs s' = logs s.
Proof.
  cbv zeta.
  unfold get_status, try_except, bind, lift, modify, gets, ret.
  intros [H1|[[H1 H2]|(H1 & [ind H2] & H3)]].
  - rewrite H1. by destruct (bool_decide _).
  - rewrite H1, H2. cbn [negb]. by destruct (bool_decide _).
  - rewrite H1, H2, H3. cbn [negb]. by destruct (bool_decide _).
Qed.

Lemma get_status_request_failure_witness :
  fst (get_status timeout_world init) = Ok Status.WT_NOT_RUNNING ∧
  status_of_exception connect_timeout = Status.OTHER_ERROR ∧
  logs (snd (get_status timeout_world init)) = logs init.
Proof.
  destruct (get_status_request_failure timeout_world init connect_timeout)
    as (Hr & _ & _ & _ & Hl).
  - right. left. split; reflexivity.
  - split; [exact Hr|]. split; [reflexivity|exact Hl].
Defined.

(** X18. When the map collaborator reports no battle, [get_status] returns
    [IN_MENU] without any request: the snapshots and both logs are as they
    were, whatever the server would have answered. *)
Theorem get_status_not_in_battle (w : world) (s : iface) :
  map_check_battle w = Ok false →
  let s' := snd (get_status w s) in
  fst (get_status w s) = Ok Status.IN_MENU ∧
  connected s' = false ∧ full_telemetry s' = ∅ ∧ basic_telemetry s' = ∅ ∧
  indicators s' = indicators s ∧ state s' = state s ∧ logs s' = logs s ∧
  ∀ w', map_check_battle w' = Ok false → get_status w' s = get_status w s.
Proof.
  intros H. cbv zeta.
  unfold get_status, try_except, bind, lift, modify, gets, ret.
  rewrite H. cbn [negb]. repeat split; try done.
  intros w' H'. by rewrite H'.
Qed.

Lemma get_status_not_in_battle_witness :
  let w := with_check_battle (Ok false) (scenario1_world (VFloat 0) (VFloat 0)) in
  fst (get_status w init) = Ok Status.IN_MENU ∧
  indicators (snd (get_status w init)) = ∅.
Proof.
  cbv zeta.
  destruct (get_status_not_in_battle
              (with_check_battle (Ok false) (scenario1_world (VFloat 0) (VFloat 0)))
              init)
    as (Hr & _ & _ & _ & Hi & _).
  - reflexivity.
  - split; [exact Hr|]. rewrite Hi. reflexivity.
Defined.

(** X19. Once [events] holds the dict that a poll without events stores,
    [get_status] against a server that is in a battle and answers both
    snapshot requests returns [OTHER_ERROR], whatever the snapshots say: its
    unconditional [get_events] raises [KeyError(-1)]. *)
Theorem get_status_after_default_poll (w : world) (s : iface)
    (ind st : gmap string value) :
  events s = EvDict →
  map_check_battle w = Ok true →
  get_indicators w = Ok ind →
  get_state w = Ok st →
  let s' := snd (get_status w s) in
  fst (get_status w s) = Ok Status.OTHER_ERROR ∧
  connected s' = false ∧ basic_telemetry s' = ∅ ∧
  indicators s' = ind ∧ state s' = st.
Proof.
  intros Hev H1 H2 H3. cbv zeta.
  unfold get_status, try_except, bind, lift, modify, gets, ret.
  rewrite H1, H2, H3. cbn [negb].
  rewrite get_events_dict by (by simpl_iface).
  by repeat split.
Qed.

Lemma get_status_after_default_poll_witness :
  events after_default_poll = EvDict ∧
  fst (get_status (scenario1_world (VFloat 0) (VFloat 0)) after_default_poll)
    = Ok Status.OTHER_ERROR ∧
  fst (get_status (scenario1_world (VFloat 0) (VFloat 0)) init)
    = Ok Status.IN_FLIGHT.
Proof.
  split; [reflexivity|]. split; [|reflexivity].
  destruct (get_status_after_default_poll
              (scenario1_world (VFloat 0) (VFloat 0)) after_default_poll
              scenario1_indicators scenario1_state)
    as (Hr & _).
  - reflexivity.
  - reflexivity.
  - reflexivity.
  - reflexivity.
  - exact Hr.
Defined.

(** ** An invariant of the telemetry attributes *)

Lemma tele_inv_tele (s s' : iface) : tele s' = tele s → tele_inv s → tele_inv s'.
Proof.
  unfold tele, tele_inv. intros H. injection H as -> _ -> -> _ ->. done.
Qed.

Lemma tele_inv_get_telemetry (w : world) (c e : bool) (s : iface) :
  tele_inv (snd (get_telemetry w c e s)).
Proof.
  pose proof (wp_run _ _ _ _ (get_telemetry_consistent w c e s)) as H1.
  pose proof (wp_run _ _ _ _ (get_telemetry_published w c e s)) as H2.
  rewrite (get_telemetry_returns w c e s) in H1, H2.
  destruct H1 as [_ H1]. split.
  - rewrite !elem_of_cons.
    destruct H1 as [[_ ->]|[_ [->|[->|[->| ->]]]]]; auto 10.
  - intros Hc.
    destruct (H2 Hc) as (ind & ind1 & ind2 & alt & ty & r & p & a & lat & lon
                         & _ & _ & _ & _ & _ & _ & Hty & _ & _ & _ & _ & _ & Hb).
    exists ty. split; [done|]. rewrite Hb. by simplify_map_eq.
Qed.

Lemma tele_inv_get_status (w : world) (s : iface) :
  tele_inv s → tele_inv (snd (get_status w s)).
Proof.
  intros [Hs _].
  pose proof (wp_run _ _ _ _ (get_status_spec w s)) as H.
  destruct (fst (get_status w s)) as [z|ex]; [|done].
  destruct H as (Hst & _ & _ & _ & H). split; [by rewrite Hst|].
  intros Hc. destruct H as [(_ & _ & ty & Hty & Hb)|(_ & Hc' & _)].
  - exists ty. split; [done|]. rewrite Hb. by simplify_map_eq.
  - rewrite Hc' in Hc. discriminate Hc.
Qed.

(** X20. On every instance a driver can hold (a fresh one, then any calls
    of the four methods against any answers), [status] is one of the five
    codes, and when [connected] is set the indicators have a [type] and
    [basic_telemetry] publishes it as the airframe. *)
Theorem reachable_tele_inv (s : iface) :
  reachable s →
  status s ∈ [Status.IN_FLIGHT; Status.IN_MENU; Status.NO_MISSION;
              Status.WT_NOT_RUNNING; Status.OTHER_ERROR] ∧
  (connected s = true →
   ∃ ty, indicators s !! "type" = Some ty ∧
         basic_telemetry s !! "airframe" = Some ty).
Proof.
  change (reachable s → tele_inv s).
  induction 1 as [|c w s _ IH].
  - split; [|done]. cbn. rewrite !elem_of_cons. auto 10.
  - destruct c; cbn [run_call].
    + by apply (tele_inv_tele s), IH; apply get_comments_tele.
    + by apply (tele_inv_tele s), IH; apply get_events_tele.
    + apply tele_inv_get_telemetry.
    + by apply tele_inv_get_status.
Qed.

Lemma reachable_tele_inv_witness :
  let s := run_call CallGetStatus (scenario1_world (VFloat 0) (VFloat 0)) init in
  connected s = true ∧
  status s = Status.WT_NOT_RUNNING ∧
  basic_telemetry s !! "airframe" = indicators s !! "type".
Proof.
  cbv zeta. split; [reflexivity|]. split; [reflexivity|].
  destruct (reachable_tele_inv
              (run_call CallGetStatus (scenario1_world (VFloat 0) (VFloat 0)) init))
    as [_ H].
  - apply reachable_call, reachable_init.
  - destruct (H eq_refl) as (ty & -> & ->). reflexivity.
Defined.

(** ** What the status of a poll tells *)

Lemma get_telemetry_status_sound (w : world) (c e : bool) (s : iface) :
  wp (get_telemetry w c e)
    (λ _ s',
       (status s' = Status.NO_MISSION →
        ∃ ind st v1,
          get_indicators w = Ok ind ∧ get_state w = Ok st ∧
          ind !! "valid" = Some v1 ∧
          (truthy v1 = false ∨
           ∃ v2, st !! "valid" = Some v2 ∧ truthy v2 = false) ∧
          full_telemetry s' = ∅ ∧ basic_telemetry s' = ∅) ∧
       (status s' = Status.IN_MENU ∨ status s' = Status.IN_FLIGHT →
        ∃ ind st v1 v2,
          get_indicators w = Ok ind ∧ get_state w = Ok st ∧
          ind !! "valid" = Some v1 ∧ truthy v1 = true ∧
          st !! "valid" = Some v2 ∧ truthy v2 = true))
    (λ _ _, False)
    s.
Proof.
  match goal with |- wp _ ?Q _ _ => set (Qn := Q) end.
  unfold get_telemetry. do 6 wp_next.
  apply wp_bind, wp_try_except, wp_bind.
  assert (∀ ex s',
            wp (modify (set_status (status_of_exception ex)) ;; gets connected)
               Qn (λ _ _, False) s') as Hexc.
  { intros ex s'. apply wp_bind, wp_modify, wp_gets. unfold Qn. simpl_iface.
    destruct (status_of_exception_cases ex) as [->| ->];
      (split; [intros H; discriminate H|intros [H|H]; discriminate H]). }
  eapply wp_mono; [apply fetch_all_spec| |]; simpl_iface; cbv beta.
  - intros _ s1 (Hind & Hst & Hc1 & Hf1 & Hb1).
    assert (∀ v1, indicators s1 !! "valid" = Some v1 →
              truthy v1 = false ∨
              (∃ v2, state s1 !! "valid" = Some v2 ∧ truthy v2 = false) →
              wp (gets connected) Qn (λ _ _, False)
                 (set_status Status.NO_MISSION s1)) as Hno.
    { intros v1 H1 H2. apply wp_gets. unfold Qn. simpl_iface. split.
      - intros _. exists (indicators s1), (state s1), v1. by repeat split.
      - intros [H|H]; discriminate H. }
    assert (∀ v1 v2 s2,
              indicators s1 !! "valid" = Some v1 → truthy v1 = true →
              state s1 !! "valid" = Some v2 → truthy v2 = true →
              status s2 = Status.IN_MENU ∨ status s2 = Status.IN_FLIGHT →
              wp (gets connected) Qn (λ _ _, False) s2) as Hyes.
    { intros v1 v2 s2 H1 T1 H2 T2 Hs2. apply wp_gets. unfold Qn. split.
      - intros H. destruct Hs2 as [Hs2|Hs2]; rewrite Hs2 in H; discriminate H.
      - intros _. exists (indicators s1), (state s1), v1, v2. by repeat split. }
    unfold classify. apply wp_bind, wp_both_valid. unfold except_Exception.
    destruct (indicators s1 !! "valid") as [v1|] eqn:H1; [|by apply Hexc].
    destruct (truthy v1) eqn:T1; [|apply wp_modify, (Hno v1); auto].
    destruct (state s1 !! "valid") as [v2|] eqn:H2; [|by apply Hexc].
    destruct (truthy v2) eqn:T2; [|apply wp_modify, (Hno v1); eauto].
    apply wp_try_except.
    eapply wp_mono; [by apply normalize_spec| |]; cbv beta.
    + intros _ s2 (_ & Hs2 & _). apply (Hyes v1 v2); auto.
    + intros ex s2 _. unfold except.
      destruct (class_in _ _); [|by apply Hexc].
      apply wp_modify, (Hyes v1 v2); auto.
  - intros ex s1 _. unfold except_Exception. by apply Hexc.
Qed.

(** X21. The status a poll records can be read back. [NO_MISSION] is only
    recorded when the indicators and state requests answered and the
    indicators' [valid] is false, or is true with the state's [valid]
    false; both telemetry dicts are then empty. [IN_MENU] and [IN_FLIGHT]
    are only recorded when both requests answered and both [valid] flags
    are true. *)
Theorem poll_status_sound (w : world) (c e : bool) (s : iface) :
  let s' := snd (get_telemetry w c e s) in
  (status s' = Status.NO_MISSION →
   ∃ ind st v1,
     get_indicators w = Ok ind ∧ get_state w = Ok st ∧
     ind !! "valid" = Some v1 ∧
     (truthy v1 = false ∨
      (truthy v1 = true ∧ ∃ v2, st !! "valid" = Some v2 ∧ truthy v2 = false)) ∧
     full_telemetry s' = ∅ ∧ basic_telemetry s' = ∅) ∧
  (status s' = Status.IN_MENU ∨ status s' = Status.IN_FLIGHT →
   ∃ ind st v1 v2,
     get_indicators w = Ok ind ∧ get_state w = Ok st ∧
     ind !! "valid" = Some v1 ∧ truthy v1 = true ∧
     st !! "valid" = Some v2 ∧ truthy v2 = true).
Proof.
  cbv zeta.
  pose proof (wp_run _ _ _ _ (get_telemetry_status_sound w c e s)) as H.
  destruct (fst (get_telemetry w c e s)) as [b|ex]; [|done].
  destruct H as [Hno Hyes]. split; [|exact Hyes].
  intros Hs. destruct (Hno Hs) as (ind & st & v1 & H1 & H2 & H3 & H4 & H5 & H6).
  exists ind, st, v1. repeat (split; [assumption|]). split; [|done].
  destruct (truthy v1); [right|by left]. split; [done|].
  destruct H4 as [H4|H4]; [discriminate H4|exact H4].
Qed.

Lemma poll_status_sound_witness :
  let w := quiet_world invalid_indicators valid_state in
  status (snd (get_telemetry w false false init)) = Status.NO_MISSION ∧
  full_telemetry (snd (get_telemetry w false false init)) = ∅.
Proof.
  cbv zeta. split; [reflexivity|].
  destruct (poll_status_sound (quiet_world invalid_indicators valid_state)
              false false init) as [H _].
  destruct (H eq_refl) as (_ & _ & _ & _ & _ & _ & _ & Hf & _).
  exact Hf.
Defined.

(** ** What the two log methods leave alone *)

(** X22. [get_comments] and [get_events] write nothing but their own log:
    whether they return or raise, the connection flag, the snapshots, both
    telemetry dicts and the status are as before, [get_comments] leaves the
    event list and its watermark alone, and [get_events] the comment list
    and its watermark. *)
Theorem log_methods_frame (w : world) (s : iface) :
  (connected (snd (get_comments w s)) = connected s ∧
   full_telemetry (snd (get_comments w s)) = full_telemetry s ∧
   basic_telemetry (snd (get_comments w s)) = basic_telemetry s ∧
   indicators (snd (get_comments w s)) = indicators s ∧
   state (snd (get_comments w s)) = state s ∧
   status (snd (get_comments w s)) = status s ∧
   events (snd (get_comments w s)) = events s ∧
   last_event_ID (snd (get_comments w s)) = last_event_ID s) ∧
  (connected (snd (get_events w s)) = connected s ∧
   full_telemetry (snd (get_events w s)) = full_telemetry s ∧
   basic_telemetry (snd (get_events w s)) = basic_telemetry s ∧
   indicators (snd (get_events w s)) = indicators s ∧
   state (snd (get_events w s)) = state s ∧
   status (snd (get_events w s)) = status s ∧
   comments (snd (get_events w s)) = comments s ∧
   last_comment_ID (snd (get_events w s)) = last_comment_ID s).
Proof.
  pose proof (get_comments_tele w s) as Hc.
  pose proof (get_events_tele w s) as He.
  destruct (get_comments_events_untouched w s) as [Hc1 Hc2].
  destruct (get_events_comments_untouched w s) as [He1 He2].
  unfold tele in Hc, He.
  injection Hc as -> -> -> -> -> ->. injection He as -> -> -> -> -> ->.
  by repeat split.
Qed.

(** ** A poll that stops at the player's position *)

Lemma classify_position_missing (w : world) (s : iface) (alt : value) (ex : exc) :
  truthy <$> indicators s !! "valid" = Some true →
  truthy <$> state s !! "valid" = Some true →
  (∀ k x, k = "aviahorizon_pitch" ∨ k = "aviahorizon_roll" →
          indicators s !! k = Some x → ∃ nx, py_neg x = Ok nx) →
  find_altitude s = Ok alt →
  map_player_lat w = Raise ex →
  exc_type ex = AttributeError ∨ exc_type ex = KeyError →
  wp (classify w)
    (λ _ s',
       status s' = Status.IN_MENU ∧ connected s' = connected s ∧
       ∃ ty r p,
         indicators s' !! "alt_m" = Some alt ∧
         basic_telemetry s' =
           <["altitude" := alt]> (<["pitch" := p]> (<["roll" := r]>
             (<["airframe" := ty]> (basic_telemetry s)))) ∧
         full_telemetry s' = state s ∪ (indicators s' ∪ full_telemetry s))
    (λ _ _, False)
    s.
Proof.
  intros H1 H2 Hneg Halt Hlat Hex.
  unfold classify. apply wp_bind, wp_both_valid.
  destruct (indicators s !! "valid") as [v1|]; [|discriminate H1].
  injection H1 as ->.
  destruct (state s !! "valid") as [v2|]; [|discriminate H2].
  injection H2 as ->.
  apply wp_try_except. unfold normalize.
  wp_next. wp_next.
  2:{ destruct (Hneg "aviahorizon_pitch" x) as [nx Hnx]; auto. congruence. }
  wp_next. wp_next.
  2:{ exfalso.
      rewrite (sign_fixed_other "aviahorizon_pitch" "aviahorizon_roll" _ _
                 ltac:(discriminate) H) in H0.
      destruct (Hneg "aviahorizon_roll" x) as [nx Hnx]; auto. congruence. }
  rename H into Hp, H0 into Hr, ind' into ind1, ind'0 into ind2.
  rewrite Hlat.
  wp_next. apply wp_pure_call.
  match goal with
  | |- match find_altitude ?S with _ => _ end =>
      rewrite (find_altitude_reads s S), Halt
  end.
  2:{ simpl_iface. intros k Hk. rewrite !elem_of_cons, elem_of_nil in Hk.
      assert (k ≠ "aviahorizon_pitch" ∧ k ≠ "aviahorizon_roll") as [Hkp Hkr]
        by (destruct Hk as [->|[->|[->|[->|[]]]]]; done).
      by rewrite (sign_fixed_other "aviahorizon_roll" k ind1 ind2 ltac:(done) Hr),
        (sign_fixed_other "aviahorizon_pitch" k _ ind1 ltac:(done) Hp). }
  do 6 wp_next.
  assert (∃ ty, <["alt_m" := alt]> ind2 !! "type" = Some ty) as [ty Hty].
  { rewrite lookup_insert_ne by done.
    rewrite (sign_fixed_other "aviahorizon_roll" "type" ind1 ind2
               ltac:(discriminate) Hr),
      (sign_fixed_other "aviahorizon_pitch" "type" _ ind1
         ltac:(discriminate) Hp).
    destruct (indicators s !! "type") as [ty|] eqn:Hty; [by exists ty|].
    rewrite (find_altitude_missing_type s Hty) in Halt. discriminate Halt. }
  assert (∃ r, <["alt_m" := alt]> ind2 !! "aviahorizon_roll" = Some r)
    as [r Hro].
  { destruct (sign_fixed_self _ _ _ Hr) as (r & Hr1 & _). exists r.
    by rewrite lookup_insert_ne by done. }
  assert (∃ p, <["alt_m" := alt]> ind2 !! "aviahorizon_pitch" = Some p)
    as [p Hpi].
  { destruct (sign_fixed_self _ _ _ Hp) as (p & Hp1 & _). exists p.
    rewrite lookup_insert_ne by done.
    by rewrite (sign_fixed_other "aviahorizon_roll" "aviahorizon_pitch"
                  ind1 ind2 ltac:(discriminate) Hr). }
  assert (<["alt_m" := alt]> ind2 !! "alt_m" = Some alt) as Ha
    by (by simplify_map_eq).
  do 2 wp_next. rewrite Hty. do 2 wp_next.
  do 2 wp_next. rewrite Hro. do 2 wp_next.
  do 2 wp_next. rewrite Hpi. do 2 wp_next.
  do 2 wp_next. rewrite Ha. do 2 wp_next.
  do 2 wp_next. unfold except.
  assert (class_in (exc_type ex) [KeyError; AttributeError] = true) as ->
    by (destruct Hex as [-> | ->]; reflexivity).
  apply wp_modify. simpl_iface. rewrite !combine_dicts_union.
  do 2 (split; [reflexivity|]). exists ty, r, p.
  by repeat split.
Qed.

(** X23. A poll that returns [False] can still publish. With the flags
    off, when the requests answer, both [valid] flags are true, pitch and
    roll have a negation, [find_altitude] returns [alt], and reading the
    player's latitude raises an [AttributeError] or a [KeyError], the poll
    returns [False] with status [IN_MENU], yet [basic_telemetry] holds the
    airframe, roll, pitch and altitude and [full_telemetry] holds the merge
    of the state and the corrected indicators. *)
Theorem poll_position_missing (w : world) (s : iface)
    (ind st : gmap string value) (alt : value) (ex : exc) :
  map_download_files w = Ok tt →
  map_parse_meta w = Ok tt →
  get_indicators w = Ok ind →
  get_state w = Ok st →
  truthy <$> ind !! "valid" = Some true →
  truthy <$> st !! "valid" = Some true →
  (∀ k x, k = "aviahorizon_pitch" ∨ k = "aviahorizon_roll" →
          ind !! k = Some x → ∃ nx, py_neg x = Ok nx) →
  find_altitude (set_indicators ind init) = Ok alt →
  map_player_lat w = Raise ex →
  exc_type ex = AttributeError ∨ exc_type ex = KeyError →
  let s' := snd (get_telemetry w false false s) in
  fst (get_telemetry w false false s) = Ok false ∧
  status s' = Status.IN_MENU ∧
  dom (basic_telemetry s')
    = ({[ "airframe"; "roll"; "pitch"; "altitude" ]} : gset string) ∧
  basic_telemetry s' !! "altitude" = Some alt ∧
  indicators s' !! "alt_m" = Some alt ∧
  full_telemetry s' = st ∪ indicators s'.
Proof.
  intros H1 H2 H3 H4 Hv1 Hv2 Hneg Halt Hlat Hex. cbv zeta.
  destruct (get_telemetry_after_fetch w false false s _
              (fetch_all_default w _ ind st H1 H2 H3 H4))
    as (-> & Hc & Hf & Hb).
  match goal with |- context [classify w ?s0] =>
    pose proof (wp_run _ _ _ _
      (classify_position_missing w s0 alt ex Hv1 Hv2 Hneg
         ltac:(by rewrite <- Halt; apply find_altitude_reads) Hlat Hex)) as H;
    assert (state s0 = st) as Hst by reflexivity;
    revert H Hc Hf Hb Hst; generalize s0; intros s1 H Hc Hf Hb Hst
  end.
  destruct (classify w s1) as [[[]|ex'] s2]; [|done].
  cbn [fst snd] in *.
  destruct H as (Hs2 & Hc2 & ty & r & p & Ha & Hb2 & Hf2).
  rewrite Hc2, Hc. split; [done|]. split; [done|].
  rewrite Hb2, Hb, Hf2, Hf, Hst, (right_id_L ∅ (∪)).
  split; [rewrite !dom_insert_L, dom_empty_L; set_solver|].
  split; [by simplify_map_eq|]. by split.
Qed.

Lemma poll_position_missing_witness :
  let s' := snd (get_telemetry no_position_world false false init) in
  fst (get_telemetry no_position_world false false init) = Ok false ∧
  status s' = Status.IN_MENU ∧
  basic_telemetry s' !! "altitude" = Some (VInt 1000) ∧
  full_telemetry s' = scenario1_state ∪ indicators s'.
Proof.
  cbv zeta.
  destruct (poll_position_missing no_position_world init
              scenario1_indicators scenario1_state (VInt 1000) no_position)
    as (Hr & Hs & _ & Ha & _ & Hf).
  - reflexivity.
  - reflexivity.
  - reflexivity.
  - reflexivity.
  - reflexivity.
  - reflexivity.
  - intros k x [-> | ->] Hx; vm_compute in Hx; injection Hx as <-;
      by eexists.
  - reflexivity.
  - reflexivity.
  - by left.
  - by repeat split.
Defined.
